(** * WhatsApp-to-Salesforce bot: a shallow embedding of [server.js]

    The development follows the layout of the source file:
    string helpers, the three in-memory stores, the collaborators
    (WhatsApp Graph API, Salesforce), [storeMessage], the handoff registry,
    the webhook, [handleConversation], [createLeadInSalesforce],
    [sendWhatsAppMessage] and the three [/api] endpoints.

    Conventions.
    - A JavaScript string is modelled by the bytes of its UTF-8 encoding
      ([string] of the Standard Library).
    - [undefined] is [None]; a property that may be absent has an [option]
      type.
    - Each handler runs to completion: the model is the sequential semantics
      of one handler invocation after another. *)

From Equations Require Import Equations.
From Stdlib Require Import Ascii String.
From stdpp Require Import gmap strings list fin_maps.

Open Scope string_scope.

(** ** String primitives used by the server *)

Module Js.

(** The line feed written [\n] in the JavaScript literals. *)
Definition LF : string := String "010"%char "".

(** [[0-9]], the complement of the class [\D]. *)
Definition is_digit (c : ascii) : bool :=
  let n := nat_of_ascii c in (48 <=? n)%nat && (n <=? 57)%nat.

(** [s.replace(/\D/g, '')]: every character that is not an ASCII digit is
    removed.  Bytes of multi-byte UTF-8 sequences are all above 127, so
    they are removed together. *)
Fixpoint replace_non_digits (s : string) : string :=
  match s with
  | EmptyString => EmptyString
  | String c r =>
      if is_digit c then String c (replace_non_digits r)
      else replace_non_digits r
  end.

(** [s.includes(sub)]: [sub] occurs somewhere in [s]. *)
Fixpoint includes (s sub : string) : bool :=
  String.prefix sub s ||
  match s with
  | EmptyString => false
  | String _ r => includes r sub
  end.

(** [s.toLowerCase()] on the ASCII letters.  JavaScript also lowers letters
    outside ASCII; none of them lowers to one of the letters of the two
    ASCII words the server compares the result with (the only
    non-ASCII characters with an ASCII letter in their lower-case mapping
    are U+212A and U+0130, giving [k] and [i]), so the comparisons made by
    the server agree with the ones made here. *)
Definition lower (c : ascii) : ascii :=
  let n := nat_of_ascii c in
  if (65 <=? n)%nat && (n <=? 90)%nat then ascii_of_nat (n + 32) else c.

Fixpoint toLowerCase (s : string) : string :=
  match s with
  | EmptyString => EmptyString
  | String c r => String (lower c) (toLowerCase r)
  end.

(** The UTF-8 encodings of the code points [String.prototype.trim] strips:
    WhiteSpace (TAB, VT, FF, SP, NBSP, ZWNBSP and category Zs) and
    LineTerminator (LF, CR, LS, PS). *)
Definition bytes (l : list nat) : string :=
  string_of_list_ascii (List.map ascii_of_nat l).

Definition white_space : list string :=
  List.map bytes
    [ [9]; [10]; [11]; [12]; [13]; [32]
    ; [194; 160]
    ; [225; 154; 128]
    ; [226; 128; 128]; [226; 128; 129]; [226; 128; 130]; [226; 128; 131]
    ; [226; 128; 132]; [226; 128; 133]; [226; 128; 134]; [226; 128; 135]
    ; [226; 128; 136]; [226; 128; 137]; [226; 128; 138]
    ; [226; 128; 168]; [226; 128; 169]; [226; 128; 175]
    ; [226; 129; 159]
    ; [227; 128; 128]
    ; [239; 187; 191] ].

(** Number of bytes of the white-space character [s] starts with, among
    the encodings [ws]; [0] when it starts with none. *)
Fixpoint ws_width (ws : list string) (s : string) : nat :=
  match ws with
  | [] => 0
  | w :: ws' => if String.prefix w s then String.length w else ws_width ws' s
  end.

(** Drop [skip] bytes, then every leading character of [ws]. *)
Fixpoint trim_from (ws : list string) (skip : nat) (s : string) : string :=
  match s with
  | EmptyString => EmptyString
  | String _ r =>
      match skip with
      | S k => trim_from ws k r
      | O =>
          match ws_width ws s with
          | O => s
          | S k => trim_from ws k r
          end
      end
  end.

Definition rev_string (s : string) : string :=
  string_of_list_ascii (List.rev (list_ascii_of_string s)).

Definition trimStart (s : string) : string := trim_from white_space 0 s.

Definition trimEnd (s : string) : string :=
  rev_string (trim_from (List.map rev_string white_space) 0 (rev_string s)).

(** [s.trim()]. *)
Definition trim (s : string) : string := trimEnd (trimStart s).

(** Truthiness of a string value that may be [undefined]. *)
Definition truthy (v : option string) : bool :=
  match v with
  | Some s => negb (s =? "")
  | None => false
  end.

(** [`${v}`] for a value that may be [undefined]. *)
Definition interpolate (v : option string) : string :=
  match v with
  | Some s => s
  | None => "undefined"
  end.

(** [o?.f] where the property [f] may itself be absent. *)
Definition opt {A B} (o : option A) (f : A -> option B) : option B :=
  match o with
  | Some a => f a
  | None => None
  end.

(** [l?.[0]] for an array that may be absent. *)
Definition at0 {A} (l : option (list A)) : option A :=
  match l with
  | Some (a :: _) => Some a
  | _ => None
  end.

End Js.

(** ** Data model *)

(** The values of [STAGES]. *)
Inductive Stage :=
| INITIAL
| ASKED_FIRST_NAME
| ASKED_LAST_NAME
| ASKED_EMAIL
| ASKED_PHONE
| ASKED_REQUIREMENT
| COMPLETED
| HANDOFF.

#[global] Instance Stage_eq_dec : EqDecision Stage.
Proof. solve_decision. Defined.

(** [conversation.data]: every property is absent until its stage sets it. *)
Record Data := mkData {
  firstName : option string;
  lastName : option string;
  email : option string;
  phone : option string;
  requirement : option string;
  whatsappNumber : option string
}.

(** The object literal [{}]. *)
Definition empty_data : Data := mkData None None None None None None.

(** An entry of [conversations]. *)
Record Conversation := mkConversation {
  stage : Stage;
  data : Data
}.

(** An element of a [messageHistory] array. *)
Record MessageRecord := mkMessageRecord {
  sender : string;
  message : string;
  timestamp : string
}.

(** The object handed to [sfConnection.sobject('Lead').create]. *)
Record LeadRecord := mkLeadRecord {
  FirstName : option string;
  LastName : option string;
  Company : string;
  Email : option string;
  Phone : option string;
  Description : option string;
  LeadSource : string;
  Status : string;
  WhatsApp_Number__c : option string;
  WhatsApp_Message__c : option string;
  WhatsApp_Conversation_ID__c : option string
}.

(** What awaiting [create] gives: a rejection, or an object with [success]
    and [id]. *)
Inductive CreateResult :=
| CreateRejected (msg : string)
| CreateResolved (success : bool) (id : string).

(** One call of [sendWhatsAppMessage] as seen from outside: recipient, body,
    and whether the POST resolved. *)
Record Outbound := mkOutbound {
  to : string;
  body : string;
  delivered : bool
}.

(** The errors the handlers can meet: a [TypeError] raised by the engine,
    the rejection of the POST to the Graph API and the rejection of a
    Salesforce call, each with its [message]. *)
Inductive Error :=
| TypeError (msg : string)
| AxiosError (msg : string)
| SalesforceError (msg : string).

Definition error_message (e : Error) : string :=
  match e with
  | TypeError m => m
  | AxiosError m => m
  | SalesforceError m => m
  end.

(** The collaborators.  Each answer is indexed by the number of interactions
    with the outside that happened before it ([tick] below), so that any run
    of answers can be described. *)
Record Env := mkEnv {
  (** [new Date().toISOString()] *)
  now : nat -> string;
  (** [axios.post(url, {to, text: {body}})]: [None] when it resolves,
      otherwise the [message] of the error it rejects with *)
  axios_post : nat -> string -> string -> option string;
  (** [conn.login(...)] resolves *)
  sf_login : nat -> bool;
  (** [sfConnection.sobject('Lead').create(leadRecord)] *)
  sf_create : nat -> LeadRecord -> CreateResult
}.

(** The module-level variables of the server, followed by the record of its
    interactions with the outside. *)
Record Server := mkServer {
  conversations : gmap string Conversation;
  messageHistory : gmap string (list MessageRecord);
  handoffMode : gmap string bool;
  (** [sfConnection] is not [null] *)
  sfConnection : bool;
  (** interactions with the outside so far *)
  tick : nat;
  (** the calls of [sendWhatsAppMessage], oldest first *)
  outbox : list Outbound;
  (** the calls of [createLeadInSalesforce], oldest first: the argument and
      the value returned ([None] for [null]) *)
  createLeadCalls : list (Data * option string);
  (** the records passed to [create], oldest first *)
  leadsSubmitted : list LeadRecord
}.

Definition initial_server : Server :=
  mkServer ∅ ∅ ∅ false 0 [] [] [].

Definition with_conversations (f : gmap string Conversation -> gmap string Conversation)
    (st : Server) : Server :=
  mkServer (f (conversations st)) (messageHistory st) (handoffMode st)
    (sfConnection st) (tick st) (outbox st) (createLeadCalls st) (leadsSubmitted st).

Definition with_messageHistory
    (f : gmap string (list MessageRecord) -> gmap string (list MessageRecord))
    (st : Server) : Server :=
  mkServer (conversations st) (f (messageHistory st)) (handoffMode st)
    (sfConnection st) (tick st) (outbox st) (createLeadCalls st) (leadsSubmitted st).

Definition with_handoffMode (f : gmap string bool -> gmap string bool)
    (st : Server) : Server :=
  mkServer (conversations st) (messageHistory st) (f (handoffMode st))
    (sfConnection st) (tick st) (outbox st) (createLeadCalls st) (leadsSubmitted st).

Definition with_sfConnection (b : bool) (st : Server) : Server :=
  mkServer (conversations st) (messageHistory st) (handoffMode st)
    b (tick st) (outbox st) (createLeadCalls st) (leadsSubmitted st).

Definition next_tick (st : Server) : Server :=
  mkServer (conversations st) (messageHistory st) (handoffMode st)
    (sfConnection st) (S (tick st)) (outbox st) (createLeadCalls st) (leadsSubmitted st).

Definition log_outbound (o : Outbound) (st : Server) : Server :=
  mkServer (conversations st) (messageHistory st) (handoffMode st)
    (sfConnection st) (tick st) (outbox st ++ [o]) (createLeadCalls st) (leadsSubmitted st).

Definition log_createLead (d : Data) (r : option string) (st : Server) : Server :=
  mkServer (conversations st) (messageHistory st) (handoffMode st)
    (sfConnection st) (tick st) (outbox st) (createLeadCalls st ++ [(d, r)]) (leadsSubmitted st).

Definition log_submitted (r : LeadRecord) (st : Server) : Server :=
  mkServer (conversations st) (messageHistory st) (handoffMode st)
    (sfConnection st) (tick st) (outbox st) (createLeadCalls st) (leadsSubmitted st ++ [r]).

(** ** Handlers as state transformers that may throw *)

Inductive Completion (A : Type) :=
| Normal (a : A)
| Throw (e : Error).
Arguments Normal {A} a.
Arguments Throw {A} e.

Definition M (A : Type) : Type := Server -> Completion A * Server.

Definition ret {A} (a : A) : M A := fun st => (Normal a, st).

Definition bind {A B} (m : M A) (k : A -> M B) : M B :=
  fun st =>
    match m st with
    | (Normal a, st') => k a st'
    | (Throw e, st') => (Throw e, st')
    end.

Definition throw {A} (e : Error) : M A := fun st => (Throw e, st).

(** [try { m } catch (error) { h error }] *)
Definition try_catch {A} (m : M A) (h : Error -> M A) : M A :=
  fun st =>
    match m st with
    | (Normal a, st') => (Normal a, st')
    | (Throw e, st') => h e st'
    end.

Definition get : M Server := fun st => (Normal st, st).

Definition modify (f : Server -> Server) : M unit := fun st => (Normal tt, f st).

Declare Scope js_scope.
Delimit Scope js_scope with js.
Notation "'let*' x := m 'in' k" := (bind m (fun x => k))
  (at level 10, x name, m at level 100, k at level 200) : js_scope.
Notation "m ;; k" := (bind m (fun _ => k))
  (at level 100, k at level 200, right associativity) : js_scope.
Open Scope js_scope.

(** ** The texts the bot sends *)

Module Reply.
Import Js.

Definition greeting : string :=
  "👋 Hello! Welcome to our business!" ++ LF ++ LF ++
  "I'd be happy to help you. Let me collect some information." ++ LF ++ LF ++
  "What is your *first name*?".

Definition ask_last_name (userMessage : string) : string :=
  "Nice to meet you, " ++ userMessage ++ "! 😊" ++ LF ++ LF ++
  "What is your *last name*?".

Definition ask_email : string := "Great! What is your *email address*?".

Definition invalid_email : string :=
  "⚠️ That doesn't look like a valid email address. Please provide a valid email (e.g., name@example.com)".

Definition ask_phone : string :=
  "Perfect! What is your *phone number*?" ++ LF ++ LF ++
  "(You can share the same number you're messaging from)".

Definition ask_requirement : string :=
  "Almost done! 📝" ++ LF ++ LF ++
  "Please describe your *requirement* or tell us what you're looking for.".

Definition thank_you (firstName : option string) (leadId : string) : string :=
  "✅ Thank you, " ++ interpolate firstName ++ "!" ++ LF ++ LF ++
  "We've received your inquiry. Our sales team will contact you shortly on WhatsApp." ++
  LF ++ LF ++ "📋 Your reference number: " ++ leadId.

Definition lead_failed : string :=
  "❌ Sorry, there was an error saving your information. Please try again or contact us directly.".

Definition already_submitted : string :=
  "Your inquiry has already been submitted. Our team will reach out soon!" ++ LF ++ LF ++
  "If you have a new inquiry, type 'restart'.".

Definition went_wrong : string := "Sorry, something went wrong. Please try again.".
End Reply.

(** ** The payload of the webhook *)

Record TextPart := mkTextPart { text_body : option string }.
Record InMessage := mkInMessage { msg_from : option string; msg_text : option TextPart }.
Record Value := mkValue { messages : option (list InMessage) }.
Record Change := mkChange { value : option Value }.
Record Entry := mkEntry { changes : option (list Change) }.
Record WebhookBody := mkWebhookBody { object : option string; entry : option (list Entry) }.

(** The JSON answers of the [/api] endpoints. *)
Record Response := mkResponse {
  status : nat;
  success : bool;
  res_message : option string;
  res_error : option string
}.

Record HistoryResponse := mkHistoryResponse {
  h_success : bool;
  h_phoneNumber : string;
  h_messageCount : nat;
  h_messages : list MessageRecord
}.

(** ** The server *)

Section Handlers.

Context (env : Env).

(** [connectToSalesforce]: on a successful login [sfConnection] is set. *)
Definition connectToSalesforce : M bool :=
  let* st := get in
  modify next_tick ;;
  if sf_login env (tick st)
  then modify (with_sfConnection true) ;; ret true
  else ret false.

(** [storeMessage(phoneNumber, sender, message)] *)
Definition storeMessage (phoneNumber sender message : string) : M unit :=
  let cleanPhone := Js.replace_non_digits phoneNumber in
  let* st := get in
  (if bool_decide (is_Some (messageHistory st !! cleanPhone))
   then ret tt
   else modify (with_messageHistory (insert cleanPhone []))) ;;
  let* st := get in
  let timestamp := now env (tick st) in
  modify next_tick ;;
  modify (with_messageHistory
            (alter (fun l => (l ++ [mkMessageRecord sender message timestamp])%list)
                   cleanPhone)).

(** [isHandoffMode(phoneNumber)] *)
Definition isHandoffMode (phoneNumber : string) : M bool :=
  let cleanPhone := Js.replace_non_digits phoneNumber in
  let* st := get in
  ret (bool_decide (handoffMode st !! cleanPhone = Some true)).

(** [setHandoffMode(phoneNumber, mode)] *)
Definition setHandoffMode (phoneNumber : string) (mode : bool) : M unit :=
  let cleanPhone := Js.replace_non_digits phoneNumber in
  modify (with_handoffMode (insert cleanPhone mode)).

(** [sendWhatsAppMessage(to, message)]: the error of a rejected POST is
    logged and thrown again. *)
Definition sendWhatsAppMessage (to message : string) : M unit :=
  let* st := get in
  modify next_tick ;;
  match axios_post env (tick st) to message with
  | None => modify (log_outbound (mkOutbound to message true))
  | Some m =>
      modify (log_outbound (mkOutbound to message false)) ;;
      throw (AxiosError m)
  end.

(** The object literal [leadRecord] of [createLeadInSalesforce]. *)
Definition leadRecord_of (data : Data) : LeadRecord :=
  {| FirstName := firstName data;
     LastName := lastName data;
     Company := Js.interpolate (firstName data) ++ " " ++ Js.interpolate (lastName data);
     Email := email data;
     Phone := phone data;
     Description := requirement data;
     LeadSource := "WhatsApp";
     Status := "Open - Not Contacted";
     WhatsApp_Number__c := whatsappNumber data;
     WhatsApp_Message__c := requirement data;
     WhatsApp_Conversation_ID__c := whatsappNumber data |}.

(** [createLeadInSalesforce(data)]: the id of the created lead, or [null]
    ([None]) when the record was not created for whatever reason. *)
Definition createLeadInSalesforce (data : Data) : M (option string) :=
  let* returned :=
    try_catch
      (let* st := get in
       (if sfConnection st then ret tt else (connectToSalesforce ;; ret tt)) ;;
       let leadRecord := leadRecord_of data in
       let* st := get in
       if sfConnection st then
         modify next_tick ;;
         modify (log_submitted leadRecord) ;;
         match sf_create env (tick st) leadRecord with
         | CreateResolved true id => ret (Some id)
         | CreateResolved false _ => ret None
         | CreateRejected m => throw (SalesforceError m)
         end
       else throw (TypeError "Cannot read properties of null (reading 'sobject')"))
      (fun _ => ret None) in
  modify (log_createLead data returned) ;;
  ret returned.

(** How the [try] block of [handleConversation] ends: after its last
    statement, with [return handleConversation(userPhone, 'Hi')], or with
    the bare [return] of the HANDOFF case. *)
Inductive Flow :=
| Replied
| Restart
| Silent.

Definition set_stage (s : Stage) (c : Conversation) : Conversation :=
  mkConversation s (data c).

Definition set_firstName (v : string) (c : Conversation) : Conversation :=
  let d := data c in
  mkConversation (stage c)
    (mkData (Some v) (lastName d) (email d) (phone d) (requirement d) (whatsappNumber d)).

Definition set_lastName (v : string) (c : Conversation) : Conversation :=
  let d := data c in
  mkConversation (stage c)
    (mkData (firstName d) (Some v) (email d) (phone d) (requirement d) (whatsappNumber d)).

Definition set_email (v : string) (c : Conversation) : Conversation :=
  let d := data c in
  mkConversation (stage c)
    (mkData (firstName d) (lastName d) (Some v) (phone d) (requirement d) (whatsappNumber d)).

Definition set_phone (v : string) (c : Conversation) : Conversation :=
  let d := data c in
  mkConversation (stage c)
    (mkData (firstName d) (lastName d) (email d) (Some v) (requirement d) (whatsappNumber d)).

Definition set_requirement (v : string) (c : Conversation) : Conversation :=
  let d := data c in
  mkConversation (stage c)
    (mkData (firstName d) (lastName d) (email d) (phone d) (Some v) (whatsappNumber d)).

Definition set_whatsappNumber (v : string) (c : Conversation) : Conversation :=
  let d := data c in
  mkConversation (stage c)
    (mkData (firstName d) (lastName d) (email d) (phone d) (requirement d) (Some v)).

(** The three statements after the [switch]. *)
Definition commit_and_reply (userPhone : string) (conversation : Conversation)
    (reply : string) : M Flow :=
  modify (with_conversations (insert userPhone conversation)) ;;
  sendWhatsAppMessage userPhone reply ;;
  storeMessage userPhone "bot" reply ;;
  ret Replied.

(** The test of the COMPLETED case. *)
Definition asks_restart (userMessage : string) : bool :=
  (Js.toLowerCase userMessage =? "restart") || (Js.toLowerCase userMessage =? "start").

(** The [try] block of [handleConversation].  The conversation object is
    the stored one whenever its stage is not INITIAL, and every path that
    assigns to it goes on to [conversations.set] with nothing that can
    throw in between, so the assignments are made on a copy that
    [commit_and_reply] stores. *)
Definition handleConversation_try (userPhone userMessage : string) : M Flow :=
  let* st := get in
  let conversation :=
    default (mkConversation INITIAL empty_data) (conversations st !! userPhone) in
  match stage conversation with
  | INITIAL =>
      commit_and_reply userPhone
        (set_stage ASKED_FIRST_NAME conversation) Reply.greeting
  | ASKED_FIRST_NAME =>
      commit_and_reply userPhone
        (set_stage ASKED_LAST_NAME (set_firstName userMessage conversation))
        (Reply.ask_last_name userMessage)
  | ASKED_LAST_NAME =>
      commit_and_reply userPhone
        (set_stage ASKED_EMAIL (set_lastName userMessage conversation))
        Reply.ask_email
  | ASKED_EMAIL =>
      if negb (Js.includes userMessage "@") || negb (Js.includes userMessage ".")
      then commit_and_reply userPhone conversation Reply.invalid_email
      else
        commit_and_reply userPhone
          (set_stage ASKED_PHONE (set_email userMessage conversation))
          Reply.ask_phone
  | ASKED_PHONE =>
      commit_and_reply userPhone
        (set_stage ASKED_REQUIREMENT (set_phone userMessage conversation))
        Reply.ask_requirement
  | ASKED_REQUIREMENT =>
      let conversation :=
        set_whatsappNumber userPhone (set_requirement userMessage conversation) in
      let* leadId := createLeadInSalesforce (data conversation) in
      if Js.truthy leadId
      then
        commit_and_reply userPhone (set_stage COMPLETED conversation)
          (Reply.thank_you (firstName (data conversation)) (Js.interpolate leadId))
      else commit_and_reply userPhone conversation Reply.lead_failed
  | COMPLETED =>
      if asks_restart userMessage
      then modify (with_conversations (delete userPhone)) ;; ret Restart
      else commit_and_reply userPhone conversation Reply.already_submitted
  | HANDOFF => ret Silent
  end.

(** The [catch] block of [handleConversation]. *)
Definition handleConversation_catch (userPhone : string) (error : Error) : M Flow :=
  sendWhatsAppMessage userPhone Reply.went_wrong ;; ret Replied.

(** One pass through the body of [handleConversation]. *)
Definition handleConversation_body (userPhone userMessage : string) : M Flow :=
  try_catch (handleConversation_try userPhone userMessage)
            (handleConversation_catch userPhone).

(** The body asks for the recursive call only from a COMPLETED
    conversation, which it has deleted by then. *)
Definition is_completed (userPhone : string) (st : Server) : nat :=
  match conversations st !! userPhone with
  | Some c => if decide (stage c = COMPLETED) then 1 else 0
  | None => 0
  end.

(** [handleConversation(userPhone, userMessage)].  The promise returned by
    the recursive call is returned without [await]: an error it rejects
    with goes to the caller and not to the [catch] block of the caller's
    own pass, which is why the call is made after [handleConversation_body]
    rather than inside it. *)
Equations? handleConversation (userPhone userMessage : string) (st : Server)
    : Completion unit * Server by wf (is_completed userPhone st) lt :=
  handleConversation userPhone userMessage st
    with Equations.Prop.Logic.inspect (handleConversation_body userPhone userMessage st) := {
    | exist _ (Normal Restart, st') _ => handleConversation userPhone "Hi" st';
    | exist _ (Normal _, st') _ => (Normal tt, st');
    | exist _ (Throw e, st') _ => (Throw e, st') }.
Proof.
  assert (Hsend : forall t m s, exists s',
             sendWhatsAppMessage t m s = (Normal tt, s') \/
             exists x, sendWhatsAppMessage t m s = (Throw x, s')).
  { intros t m s. unfold sendWhatsAppMessage, bind, get, modify, throw.
    destruct (axios_post env (tick s) t m); eauto. }
  assert (Hcatch : forall x s s',
             handleConversation_catch userPhone x s <> (Normal Restart, s')).
  { intros x s s'. unfold handleConversation_catch, bind, ret.
    destruct (Hsend userPhone Reply.went_wrong s) as [s1 [-> | [y ->]]]; congruence. }
  assert (Hreply : forall c r s s',
             try_catch (commit_and_reply userPhone c r)
               (handleConversation_catch userPhone) s <> (Normal Restart, s')).
  { intros c r s s'. unfold try_catch, commit_and_reply, bind, modify, ret.
    destruct (Hsend userPhone r (with_conversations (insert userPhone c) s))
      as [s1 [-> | [y ->]]]; [| apply Hcatch].
    unfold storeMessage, bind, get, modify, ret.
    destruct (bool_decide _); congruence. }
  revert e. unfold handleConversation_body, handleConversation_try, is_completed.
  unfold try_catch at 1. unfold bind at 1, get at 1.
  destruct (conversations st !! userPhone) as [c|]; simpl;
    [| intros e; exfalso; revert e; apply Hreply].
  destruct (stage c) eqn:Hstage; simpl;
    try (intros e; exfalso; revert e; apply Hreply).
  - destruct (_ || _); intros e; exfalso; revert e; apply Hreply.
  - unfold bind at 1.
    destruct (createLeadInSalesforce _ st) as [[leadId|x] s1]; fold (@bind Flow Flow).
    + destruct (Js.truthy leadId); intros e; exfalso; revert e; apply Hreply.
    + intros e; exfalso; revert e; apply Hcatch.
  - destruct (asks_restart userMessage).
    + unfold bind, modify, ret. intros [= <-]. simpl.
      rewrite lookup_delete_eq. lia.
    + intros e; exfalso; revert e; apply Hreply.
  - unfold ret. congruence.
Qed.

(** [message.text?.body?.trim() || ''] *)
Definition messageText_of (message : InMessage) : string :=
  let trimmed := option_map Js.trim (Js.opt (msg_text message) text_body) in
  if Js.truthy trimmed then Js.interpolate trimmed else "".

(** [app.post('/webhook', ...)].  The status 200 is sent before anything
    else; what follows is the rest of the handler.  [storeMessage] and
    [isHandoffMode] start with [phoneNumber.replace], a [TypeError] when
    [message.from] is [undefined]. *)
Definition post_webhook (body : WebhookBody) : M unit :=
  try_catch
    (if bool_decide (object body = Some "whatsapp_business_account") then
       let entry := Js.at0 (entry body) in
       let changes := Js.at0 (Js.opt entry changes) in
       let value := Js.opt changes value in
       match Js.opt value messages with
       | Some messages =>
           match Js.at0 (Some messages) with
           | None =>
               throw (TypeError "Cannot read properties of undefined (reading 'from')")
           | Some message =>
               let messageText := messageText_of message in
               match msg_from message with
               | None =>
                   throw (TypeError "Cannot read properties of undefined (reading 'replace')")
               | Some from =>
                   storeMessage from "customer" messageText ;;
                   let* handoff := isHandoffMode from in
                   if handoff then ret tt
                   else handleConversation from messageText
               end
           end
       | None => ret tt
       end
     else ret tt)
    (fun _ => ret tt).

(** [app.post('/api/send-message', ...)] *)
Definition post_api_send_message (phoneNumber message : option string) : M Response :=
  try_catch
    (match phoneNumber, message with
     | Some phoneNumber, Some message =>
         if (phoneNumber =? "") || (message =? "") then
           ret (mkResponse 400 false None (Some "Phone number and message are required"))
         else
           let cleanPhone := Js.replace_non_digits phoneNumber in
           sendWhatsAppMessage cleanPhone message ;;
           storeMessage cleanPhone "sales" message ;;
           setHandoffMode cleanPhone true ;;
           let* st := get in
           let conversation :=
             default (mkConversation INITIAL empty_data) (conversations st !! cleanPhone) in
           modify (with_conversations (insert cleanPhone (set_stage HANDOFF conversation))) ;;
           ret (mkResponse 200 true (Some "Message sent successfully") None)
     | _, _ =>
         ret (mkResponse 400 false None (Some "Phone number and message are required"))
     end)
    (fun error =>
       ret (mkResponse 500 false None
              (Some (if error_message error =? "" then "Failed to send message"
                     else error_message error)))).

(** [app.get('/api/conversation-history/:phoneNumber', ...)] *)
Definition get_api_conversation_history (phoneNumber : string) : M HistoryResponse :=
  let cleanPhone := Js.replace_non_digits phoneNumber in
  let* st := get in
  let history := default [] (messageHistory st !! cleanPhone) in
  ret (mkHistoryResponse true cleanPhone (length history) history).

(** [app.post('/api/resume-bot', ...)] *)
Definition post_api_resume_bot (phoneNumber : option string) : M Response :=
  try_catch
    (match phoneNumber with
     | None =>
         throw (TypeError "Cannot read properties of undefined (reading 'replace')")
     | Some phoneNumber =>
         let cleanPhone := Js.replace_non_digits phoneNumber in
         setHandoffMode cleanPhone false ;;
         let* st := get in
         let conversation :=
           default (mkConversation COMPLETED empty_data) (conversations st !! cleanPhone) in
         modify (with_conversations (insert cleanPhone (set_stage COMPLETED conversation))) ;;
         ret (mkResponse 200 true (Some "Bot resumed") None)
     end)
    (fun error => ret (mkResponse 500 false None (Some (error_message error)))).

(** A request to the server, and the server's state after a run of them. *)
Inductive Request :=
| PostWebhook (body : WebhookBody)
| PostSendMessage (phoneNumber message : option string)
| GetConversationHistory (phoneNumber : string)
| PostResumeBot (phoneNumber : option string).

Definition serve (r : Request) (st : Server) : Server :=
  match r with
  | PostWebhook body => snd (post_webhook body st)
  | PostSendMessage phoneNumber message => snd (post_api_send_message phoneNumber message st)
  | GetConversationHistory phoneNumber => snd (get_api_conversation_history phoneNumber st)
  | PostResumeBot phoneNumber => snd (post_api_resume_bot phoneNumber st)
  end.

Definition serve_all (rs : list Request) (st : Server) : Server :=
  foldl (fun st r => serve r st) st rs.

End Handlers.

(** The payload WhatsApp posts for one text message. *)
Definition text_message (from : string) (text : string) : WebhookBody :=
  mkWebhookBody (Some "whatsapp_business_account")
    (Some [mkEntry (Some [mkChange (Some (mkValue (Some
       [mkInMessage (Some from) (Some (mkTextPart (Some text)))])))])]).

(** Collaborators that always succeed; the CRM answers with the id [lead]. *)
Definition env_ok (lead : string) : Env :=
  mkEnv (fun _ => "2024-01-01T00:00:00.000Z") (fun _ _ _ => None)
        (fun _ => true) (fun _ _ => CreateResolved true lead).

(** The same with a messaging transport that rejects every POST. *)
Definition env_send_fails (lead : string) : Env :=
  mkEnv (fun _ => "2024-01-01T00:00:00.000Z") (fun _ _ _ => Some "Request failed")
        (fun _ => true) (fun _ _ => CreateResolved true lead).

(** The same with a CRM that rejects every record. *)
Definition env_crm_fails : Env :=
  mkEnv (fun _ => "2024-01-01T00:00:00.000Z") (fun _ _ _ => None)
        (fun _ => true) (fun _ _ => CreateRejected "INVALID_FIELD").

(** ** Descriptions used in the statements *)

(** The state after [storeMessage] pushed [r] on the array of [cleanPhone]. *)
Definition push_history (cleanPhone : string) (r : MessageRecord) (st : Server) : Server :=
  with_messageHistory
    (fun h => <[cleanPhone := (default [] (h !! cleanPhone) ++ [r])%list]> h)
    (next_tick st).

(** The message the webhook handler works on: [value.messages[0]] of a
    payload of a WhatsApp business account, when there is one. *)
Definition incoming (body : WebhookBody) : option InMessage :=
  if bool_decide (object body = Some "whatsapp_business_account") then
    match Js.opt (Js.opt (Js.at0 (Js.opt (Js.at0 (entry body)) changes)) value) messages with
    | Some messages => Js.at0 (Some messages)
    | None => None
    end
  else None.

(** What the stores hold for a key. *)
Definition history_of (st : Server) (cleanPhone : string) : list MessageRecord :=
  default [] (messageHistory st !! cleanPhone).

Definition conversation_of (st : Server) (userPhone : string) : Conversation :=
  default (mkConversation INITIAL empty_data) (conversations st !! userPhone).

(** The calls of [sendWhatsAppMessage] made between [st] and [st']. *)
Definition sent_between (st st' : Server) : list Outbound :=
  drop (length (outbox st)) (outbox st').

(** The first message sent between [st] and [st']: the reply. *)
Definition reply_between (st st' : Server) : option string :=
  body <$> head (sent_between st st').

(** The value and the state [createLeadInSalesforce] ends with. *)
Definition createLead (env : Env) (d : Data) (st : Server) : option string * Server :=
  match createLeadInSalesforce env d st with
  | (Normal leadId, st') => (leadId, st')
  | (Throw _, st') => (None, st')
  end.

(** What one call of [handleConversation] decides before it commits and
    sends: the conversation to store, the reply, and the state the
    decision leaves; [None] when it returns without a reply. *)
Definition decide_reply (env : Env) (userPhone userMessage : string) (st : Server)
    : option (Conversation * string * Server) :=
  let conversation := conversation_of st userPhone in
  match stage conversation with
  | INITIAL => Some (set_stage ASKED_FIRST_NAME conversation, Reply.greeting, st)
  | ASKED_FIRST_NAME =>
      Some (set_stage ASKED_LAST_NAME (set_firstName userMessage conversation),
            Reply.ask_last_name userMessage, st)
  | ASKED_LAST_NAME =>
      Some (set_stage ASKED_EMAIL (set_lastName userMessage conversation),
            Reply.ask_email, st)
  | ASKED_EMAIL =>
      if negb (Js.includes userMessage "@") || negb (Js.includes userMessage ".")
      then Some (conversation, Reply.invalid_email, st)
      else Some (set_stage ASKED_PHONE (set_email userMessage conversation),
                 Reply.ask_phone, st)
  | ASKED_PHONE =>
      Some (set_stage ASKED_REQUIREMENT (set_phone userMessage conversation),
            Reply.ask_requirement, st)
  | ASKED_REQUIREMENT =>
      let conversation :=
        set_whatsappNumber userPhone (set_requirement userMessage conversation) in
      let (leadId, st') := createLead env (data conversation) st in
      if Js.truthy leadId
      then Some (set_stage COMPLETED conversation,
                 Reply.thank_you (firstName (data conversation)) (Js.interpolate leadId),
                 st')
      else Some (conversation, Reply.lead_failed, st')
  | COMPLETED =>
      if asks_restart userMessage
      then Some (mkConversation ASKED_FIRST_NAME empty_data, Reply.greeting,
                 with_conversations (delete userPhone) st)
      else Some (conversation, Reply.already_submitted, st)
  | HANDOFF => None
  end.

(** The end of a replying pass: the statements after the [switch], and the
    [catch] block when the send throws. *)
Definition deliver (env : Env) (userPhone : string) (conversation : Conversation)
    (reply : string) (st : Server) : Completion unit * Server :=
  let st1 := with_conversations (insert userPhone conversation) st in
  match axios_post env (tick st1) userPhone reply with
  | None =>
      let st2 := log_outbound (mkOutbound userPhone reply true) (next_tick st1) in
      (Normal tt,
       push_history (Js.replace_non_digits userPhone)
         (mkMessageRecord "bot" reply (now env (tick st2))) st2)
  | Some _ =>
      let st2 := log_outbound (mkOutbound userPhone reply false) (next_tick st1) in
      match axios_post env (tick st2) userPhone Reply.went_wrong with
      | None =>
          (Normal tt, log_outbound (mkOutbound userPhone Reply.went_wrong true) (next_tick st2))
      | Some m' =>
          (Throw (AxiosError m'),
           log_outbound (mkOutbound userPhone Reply.went_wrong false) (next_tick st2))
      end
  end.

(** The collaborators of [env] with a messaging transport that never fails. *)
Definition always_delivering (env : Env) : Env :=
  mkEnv (now env) (fun _ _ _ => None) (sf_login env) (sf_create env).

(** The order of the stages in the script. *)
Definition rank (s : Stage) : nat :=
  match s with
  | INITIAL => 0
  | ASKED_FIRST_NAME => 1
  | ASKED_LAST_NAME => 2
  | ASKED_EMAIL => 3
  | ASKED_PHONE => 4
  | ASKED_REQUIREMENT => 5
  | COMPLETED => 6
  | HANDOFF => 7
  end.

(** The state once the webhook handler has stored the customer's message. *)
Definition inbound_recorded (env : Env) (from text : string) (st : Server) : Server :=
  push_history (Js.replace_non_digits from)
    (mkMessageRecord "customer" text (now env (tick st))) st.

(** The webhook handler never throws; the state it leaves. *)
Definition after_webhook (env : Env) (body : WebhookBody) (st : Server) : Server :=
  match incoming body with
  | Some m =>
      match msg_from m with
      | Some from =>
          let st1 := inbound_recorded env from (messageText_of m) st in
          if bool_decide (handoffMode st !! Js.replace_non_digits from = Some true)
          then st1
          else snd (handleConversation env from (messageText_of m) st1)
      | None => st
      end
  | None => st
  end.

(** The request is a call of [/api/resume-bot] for the sender [s]. *)
Definition resumes (s : string) (r : Request) : Prop :=
  exists p, r = PostResumeBot (Some p) /\ Js.replace_non_digits p = s.

(** None of the three stores differs between [st] and [st']. *)
Definition stores_unchanged (st st' : Server) : Prop :=
  conversations st' = conversations st /\
  messageHistory st' = messageHistory st /\
  handoffMode st' = handoffMode st.

(** ** Sample states *)

(** A server that holds one conversation, for ["15551234567"], waiting for
    the e-mail address of John Doe. *)
Definition asked_email_server : Server :=
  with_conversations
    (insert "15551234567"
       (mkConversation ASKED_EMAIL
          (mkData (Some "John") (Some "Doe") None None None None)))
    initial_server.

(** The same conversation once the lead is submitted. *)
Definition completed_server : Server :=
  with_conversations
    (insert "15551234567"
       (mkConversation COMPLETED
          (mkData (Some "John") (Some "Doe") (Some "john@x.com") (Some "555123")
                  (Some "need a website") (Some "15551234567"))))
    initial_server.

(** The same conversation waiting for the requirement. *)
Definition asked_requirement_server : Server :=
  with_conversations
    (insert "15551234567"
       (mkConversation ASKED_REQUIREMENT
          (mkData (Some "John") (Some "Doe") (Some "john@x.com") (Some "555123")
                  None None)))
    initial_server.

(** The server after a sales agent wrote to ["+1 (555) 123-4567"]. *)
Definition handoff_server : Server :=
  serve (env_ok "00Q1")
    (PostSendMessage (Some "+1 (555) 123-4567") (Some "We'll call you")) initial_server.

(** A payload with a sender and no text, as for an image. *)
Definition textless_message (from : string) : WebhookBody :=
  mkWebhookBody (Some "whatsapp_business_account")
    (Some [mkEntry (Some [mkChange (Some (mkValue (Some
       [mkInMessage (Some from) None])))])]).

(** A payload whose message names no sender. *)
Definition senderless_message (text : string) : WebhookBody :=
  mkWebhookBody (Some "whatsapp_business_account")
    (Some [mkEntry (Some [mkChange (Some (mkValue (Some
       [mkInMessage None (Some (mkTextPart (Some text)))])))])]).

(** ** The health endpoint *)

(** The answer of [GET /health]. *)
Record Health := mkHealth {
  hl_status : string;
  hl_salesforce : string;
  hl_activeConversations : nat;
  hl_storedHistories : nat;
  hl_handoffSessions : nat;
  hl_timestamp : string
}.

(** [app.get('/health', ...)] *)
Definition get_health (env : Env) : M Health :=
  let* st := get in
  modify next_tick ;;
  ret (mkHealth "running"
         (if sfConnection st then "connected" else "disconnected")
         (size (conversations st))
         (size (messageHistory st))
         (size (handoffMode st))
         (now env (tick st))).

(** ** Well-formed conversations and leads *)






(** * Properties *)

(** ** The string primitives on samples *)

Example trim_sample : Js.trim ("  restart " ++ Js.LF) = "restart".
Proof. reflexivity. Qed.

Example trim_no_break_space :
  Js.trim (Js.bytes [194; 160; 104; 105; 226; 128; 168]) = "hi".
Proof. reflexivity. Qed.

Example toLowerCase_sample : Js.toLowerCase "ReStArT" = "restart".
Proof. reflexivity. Qed.

Example includes_sample :
  Js.includes "john@x.com" "@" = true /\ Js.includes "john" "@" = false.
Proof. split; reflexivity. Qed.


(** ** Running the building blocks *)

Lemma handleConversation_step env p m st :
  handleConversation env p m st =
  match handleConversation_body env p m st with
  | (Normal Restart, st') => handleConversation env p "Hi" st'
  | (Normal _, st') => (Normal tt, st')
  | (Throw e, st') => (Throw e, st')
  end.
Proof.
  rewrite handleConversation_equation_1.
  generalize (Logic.inspect (handleConversation_body env p m st)).
  intros [[[[]|e] st'] E]; simpl; rewrite E; reflexivity.
Qed.

Lemma storeMessage_run env phoneNumber sender message st :
  storeMessage env phoneNumber sender message st =
  (Normal tt,
   push_history (Js.replace_non_digits phoneNumber)
     (mkMessageRecord sender message (now env (tick st))) st).
Proof.
  unfold storeMessage, push_history, bind, get, modify, ret.
  set (k := Js.replace_non_digits phoneNumber).
  destruct st as [cs h hm sf t ob cl ls]; simpl.
  case_bool_decide as Hk; simpl; unfold with_messageHistory, next_tick; simpl;
    do 2 f_equal; apply map_eq; intros i; destruct (decide (k = i)) as [<-|Hne].
  - destruct Hk as [l Hl]. rewrite lookup_alter_eq, lookup_insert_eq, Hl. reflexivity.
  - rewrite lookup_alter_ne, lookup_insert_ne by done. reflexivity.
  - rewrite lookup_alter_eq, !lookup_insert_eq.
    destruct (h !! k) eqn:Hl; [exfalso; apply Hk; eauto | reflexivity].
  - rewrite lookup_alter_ne, !lookup_insert_ne by done. reflexivity.
Qed.

Lemma sendWhatsAppMessage_run env to message st :
  sendWhatsAppMessage env to message st =
  match axios_post env (tick st) to message with
  | None => (Normal tt, log_outbound (mkOutbound to message true) (next_tick st))
  | Some m => (Throw (AxiosError m), log_outbound (mkOutbound to message false) (next_tick st))
  end.
Proof.
  unfold sendWhatsAppMessage, bind, get, modify, throw.
  destruct (axios_post env (tick st) to message); reflexivity.
Qed.

Lemma reply_run env p c r st :
  match try_catch (commit_and_reply env p c r) (handleConversation_catch env p) st with
  | (Normal Restart, st') => handleConversation env p "Hi" st'
  | (Normal _, st') => (Normal tt, st')
  | (Throw e, st') => (Throw e, st')
  end = deliver env p c r st.
Proof.
  unfold try_catch, commit_and_reply, deliver, handleConversation_catch.
  unfold bind at 1 2. unfold modify at 1.
  rewrite sendWhatsAppMessage_run.
  destruct (axios_post env _ p r).
  - unfold bind. rewrite sendWhatsAppMessage_run.
    destruct (axios_post env _ p Reply.went_wrong); reflexivity.
  - unfold bind. rewrite storeMessage_run. reflexivity.
Qed.

Lemma createLeadInSalesforce_run env d st :
  createLeadInSalesforce env d st =
  (Normal (fst (createLead env d st)), snd (createLead env d st)).
Proof.
  unfold createLead.
  unfold createLeadInSalesforce, try_catch, connectToSalesforce, bind, get, modify, ret, throw.
  destruct (sfConnection st) eqn:Hsf; simpl.
  - rewrite Hsf. destruct (sf_create env _ _) as [m|[] id]; reflexivity.
  - destruct (sf_login env (tick st)); simpl.
    + destruct (sf_create env _ _) as [m|[] id]; reflexivity.
    + rewrite Hsf. reflexivity.
Qed.

Lemma handleConversation_spec env p m st :
  handleConversation env p m st =
  match decide_reply env p m st with
  | None => (Normal tt, st)
  | Some (c, r, st1) => deliver env p c r st1
  end.
Proof.
  rewrite handleConversation_step.
  unfold handleConversation_body, handleConversation_try, decide_reply, conversation_of.
  unfold try_catch at 1. unfold bind at 1. unfold get at 1.
  destruct (conversations st !! p) as [[s d]|] eqn:Hc; simpl;
    [destruct s; simpl |]; try exact (reply_run env p _ _ st).
  - destruct (_ || _); exact (reply_run env p _ _ st).
  - unfold bind at 1. rewrite createLeadInSalesforce_run.
    destruct (createLead env _ st) as [leadId st1]; simpl.
    destruct (Js.truthy leadId); exact (reply_run env p _ _ st1).
  - destruct (asks_restart m); [| exact (reply_run env p _ _ st)].
    unfold bind, modify, ret.
    rewrite handleConversation_step.
    unfold handleConversation_body, handleConversation_try.
    unfold try_catch at 1. unfold bind at 1. unfold get at 1.
    simpl. rewrite lookup_delete_eq. simpl.
    exact (reply_run env p _ _ _).
  - reflexivity.
Qed.

Lemma createLead_frame env d st :
  let st' := snd (createLead env d st) in
  conversations st' = conversations st /\
  messageHistory st' = messageHistory st /\
  handoffMode st' = handoffMode st /\
  outbox st' = outbox st /\
  createLeadCalls st' = (createLeadCalls st ++ [(d, fst (createLead env d st))])%list /\
  leadsSubmitted st' =
    (leadsSubmitted st ++ if sfConnection st' then [leadRecord_of d] else [])%list.
Proof.
  unfold createLead.
  unfold createLeadInSalesforce, try_catch, connectToSalesforce, bind, get, modify, ret, throw.
  destruct (sfConnection st) eqn:Hsf; simpl.
  - rewrite Hsf. destruct (sf_create env _ _) as [m|[] id]; simpl; rewrite ?Hsf; by repeat split.
  - destruct (sf_login env (tick st)); simpl.
    + destruct (sf_create env _ _) as [m|[] id]; simpl; by repeat split.
    + rewrite Hsf. simpl. rewrite Hsf, app_nil_r. by repeat split.
Qed.

Lemma deliver_conversations env p c r st :
  conversations (snd (deliver env p c r st)) = <[p := c]> (conversations st).
Proof.
  unfold deliver. simpl.
  destruct (axios_post env (tick st) p r); [| reflexivity].
  destruct (axios_post env _ p Reply.went_wrong); reflexivity.
Qed.

Lemma deliver_handoffMode env p c r st :
  handoffMode (snd (deliver env p c r st)) = handoffMode st.
Proof.
  unfold deliver. simpl.
  destruct (axios_post env (tick st) p r); [| reflexivity].
  destruct (axios_post env _ p Reply.went_wrong); reflexivity.
Qed.

Lemma deliver_messageHistory env p c r st :
  messageHistory (snd (deliver env p c r st)) =
  match axios_post env (tick st) p r with
  | None =>
      <[Js.replace_non_digits p :=
          (history_of st (Js.replace_non_digits p) ++
           [mkMessageRecord "bot" r (now env (S (tick st)))])%list]> (messageHistory st)
  | Some _ => messageHistory st
  end.
Proof.
  unfold deliver. simpl.
  destruct (axios_post env (tick st) p r); [| reflexivity].
  destruct (axios_post env _ p Reply.went_wrong); reflexivity.
Qed.

Lemma deliver_outbox env p c r st :
  exists rest,
    outbox (snd (deliver env p c r st)) =
    (outbox st ++
     mkOutbound p r (bool_decide (axios_post env (tick st) p r = None)) :: rest)%list.
Proof.
  unfold deliver. simpl.
  destruct (axios_post env (tick st) p r).
  - rewrite bool_decide_eq_false_2 by congruence.
    destruct (axios_post env _ p Reply.went_wrong); simpl;
      rewrite <- app_assoc; eexists; reflexivity.
  - rewrite bool_decide_eq_true_2 by reflexivity. exists []. reflexivity.
Qed.

Lemma deliver_crm env p c r st :
  createLeadCalls (snd (deliver env p c r st)) = createLeadCalls st /\
  leadsSubmitted (snd (deliver env p c r st)) = leadsSubmitted st /\
  sfConnection (snd (deliver env p c r st)) = sfConnection st.
Proof.
  unfold deliver. simpl.
  destruct (axios_post env (tick st) p r); [| auto].
  destruct (axios_post env _ p Reply.went_wrong); auto.
Qed.

Lemma post_webhook_run env body st :
  post_webhook env body st = (Normal tt, after_webhook env body st).
Proof.
  unfold post_webhook, after_webhook, incoming, try_catch.
  case_bool_decide; [| reflexivity].
  destruct (Js.opt _ messages) as [ms|]; [| reflexivity].
  destruct (Js.at0 (Some ms)) as [m|]; [| reflexivity].
  destruct (msg_from m) as [from|]; [| reflexivity].
  unfold bind at 1. rewrite storeMessage_run.
  unfold bind, isHandoffMode, get, ret. simpl.
  case_bool_decide; [reflexivity |].
  destruct (handleConversation env from _ _) as [[[]|e] st']; reflexivity.
Qed.

Lemma decide_reply_frame env p m st c r st1 :
  decide_reply env p m st = Some (c, r, st1) ->
  outbox st1 = outbox st /\
  messageHistory st1 = messageHistory st /\
  handoffMode st1 = handoffMode st.
Proof.
  unfold decide_reply.
  destruct (stage (conversation_of st p)); try (intros [= <- <- <-]; by repeat split).
  - destruct (_ || _); intros [= <- <- <-]; by repeat split.
  - pose proof (createLead_frame env
      (data (set_whatsappNumber p (set_requirement m (conversation_of st p)))) st) as F.
    destruct (createLead env _ st) as [leadId st'']; simpl in F.
    destruct F as (_ & F2 & F3 & F4 & _).
    destruct (Js.truthy leadId); intros [= <- <- <-]; by repeat split.
  - destruct (asks_restart m); intros [= <- <- <-]; by repeat split.
Qed.

Lemma reply_between_app st st' o rest :
  outbox st' = (outbox st ++ o :: rest)%list -> reply_between st st' = Some (body o).
Proof.
  intros H. unfold reply_between, sent_between. rewrite H, drop_app_length. reflexivity.
Qed.

(** A replying call stores the conversation it decided on and sends the
    reply it decided on first, whatever the transport does. *)
Lemma handleConversation_replying env p m st c r st1 :
  decide_reply env p m st = Some (c, r, st1) ->
  let st' := snd (handleConversation env p m st) in
  conversations st' = <[p := c]> (conversations st1) /\
  reply_between st st' = Some r /\
  handoffMode st' = handoffMode st /\
  createLeadCalls st' = createLeadCalls st1 /\
  leadsSubmitted st' = leadsSubmitted st1 /\
  sfConnection st' = sfConnection st1.
Proof.
  intros Hd st'. subst st'. rewrite handleConversation_spec, Hd.
  destruct (decide_reply_frame _ _ _ _ _ _ _ Hd) as (Ho & _ & Hh).
  split; [apply deliver_conversations |].
  split; [| split; [by rewrite deliver_handoffMode | apply deliver_crm]].
  destruct (deliver_outbox env p c r st1) as [rest Hrest].
  rewrite Ho in Hrest. by rewrite (reply_between_app _ _ _ _ Hrest).
Qed.

(** ** C5: the sender identity *)

Lemma replace_non_digits_twice x :
  Js.replace_non_digits (Js.replace_non_digits x) = Js.replace_non_digits x.
Proof.
  induction x as [|c x IH]; simpl; [reflexivity |].
  destruct (Js.is_digit c) eqn:E; simpl; rewrite ?E; congruence.
Qed.

(** C5.  Stripping the non-digit characters is idempotent, and the two
    spellings ["+1 (555) 123-4567"] and ["15551234567"] of one number strip
    to the same identity. *)
Theorem replace_non_digits_idempotent :
  (forall x, Js.replace_non_digits (Js.replace_non_digits x) = Js.replace_non_digits x) /\
  Js.replace_non_digits "+1 (555) 123-4567" = Js.replace_non_digits "15551234567".
Proof.
  split; [exact replace_non_digits_twice | reflexivity].
Qed.

(** ** C1: the e-mail step *)

(** C1, amended.  At ASKED_EMAIL a text that contains both ['@'] and ['.']
    is stored as the e-mail and the stage advances to ASKED_PHONE with the
    question for the phone number; every other text, lacking one of the two
    characters, leaves the conversation as it is and is answered with the
    validation error. *)
Theorem email_step env st userPhone userMessage c :
  conversations st !! userPhone = Some c ->
  stage c = ASKED_EMAIL ->
  let st' := snd (handleConversation env userPhone userMessage st) in
  if Js.includes userMessage "@" && Js.includes userMessage "."
  then conversations st' !! userPhone =
         Some (set_stage ASKED_PHONE (set_email userMessage c)) /\
       reply_between st st' = Some Reply.ask_phone
  else conversations st' !! userPhone = Some c /\
       reply_between st st' = Some Reply.invalid_email.
Proof.
  intros Hc Hs.
  assert (Hd : decide_reply env userPhone userMessage st =
               if Js.includes userMessage "@" && Js.includes userMessage "."
               then Some (set_stage ASKED_PHONE (set_email userMessage c), Reply.ask_phone, st)
               else Some (c, Reply.invalid_email, st)).
  { unfold decide_reply, conversation_of. rewrite Hc. simpl. rewrite Hs.
    destruct (Js.includes userMessage "@"), (Js.includes userMessage "."); reflexivity. }
  destruct (Js.includes userMessage "@" && Js.includes userMessage ".");
    destruct (handleConversation_replying _ _ _ _ _ _ _ Hd) as (Hcs & Hr & _);
    simpl; rewrite Hcs, lookup_insert_eq; auto.
Qed.

Lemma email_step_witness :
  conversations asked_email_server !! "15551234567" =
    Some (mkConversation ASKED_EMAIL (mkData (Some "John") (Some "Doe") None None None None)) /\
  conversations
    (snd (handleConversation (env_ok "00Q1") "15551234567" "john@x.com" asked_email_server))
    !! "15551234567" =
    Some (mkConversation ASKED_PHONE
            (mkData (Some "John") (Some "Doe") (Some "john@x.com") None None None)).
Proof.
  split; [reflexivity |].
  apply (email_step (env_ok "00Q1") asked_email_server "15551234567" "john@x.com"
           (mkConversation ASKED_EMAIL (mkData (Some "John") (Some "Doe") None None None None))
           eq_refl eq_refl).
Defined.

(** C1 as stated fails: ["john@x"] does not lack both characters, it has an
    ['@'], and yet it is rejected: the stage stays ASKED_EMAIL, no e-mail is
    stored and the reply is the validation error. *)
Lemma email_with_at_but_no_dot_is_rejected :
  let st' := snd (handleConversation (env_ok "00Q1") "15551234567" "john@x" asked_email_server) in
  Js.includes "john@x" "@" = true /\
  Js.includes "john@x" "." = false /\
  conversations st' !! "15551234567" =
    Some (mkConversation ASKED_EMAIL (mkData (Some "John") (Some "Doe") None None None None)) /\
  reply_between asked_email_server st' = Some Reply.invalid_email.
Proof. vm_compute. by repeat split. Qed.

(** ** C8: the COMPLETED stage *)

Lemma rank_after env p m st :
  rank (stage (conversation_of (snd (handleConversation env p m st)) p)) <
  rank (stage (conversation_of st p)) ->
  stage (conversation_of st p) = COMPLETED /\ asks_restart m = true.
Proof.
  destruct (decide_reply env p m st) as [[[c r] st1]|] eqn:Hd.
  - destruct (handleConversation_replying _ _ _ _ _ _ _ Hd) as (Hcs & _).
    unfold conversation_of at 1. rewrite Hcs, lookup_insert_eq. simpl.
    revert Hd. unfold decide_reply.
    destruct (stage (conversation_of st p)) eqn:Hs;
      try (intros [= <- <- <-]; simpl; rewrite ?Hs; simpl; lia).
    + destruct (_ || _); intros [= <- <- <-]; simpl; rewrite ?Hs; simpl; lia.
    + destruct (createLead env _ st) as [leadId st2].
      destruct (Js.truthy leadId); intros [= <- <- <-]; simpl; rewrite ?Hs; simpl; lia.
    + destruct (asks_restart m); [auto |].
      intros [= <- <- <-]; simpl; rewrite ?Hs; simpl; lia.
  - rewrite handleConversation_spec, Hd. simpl. lia.
Qed.

(** C8.  From COMPLETED, a text whose lower-case form is ["restart"] or
    ["start"] puts the conversation at ASKED_FIRST_NAME with an empty data
    record, by running the INITIAL handling on the store without the
    conversation, and is answered with the greeting; any other text leaves
    the conversation as it is and is answered with the already-submitted
    notice.  The greeting is the reply of every INITIAL conversation, and no
    other call of [handleConversation] lowers the rank of a stage. *)
Theorem completed_step env st userPhone userMessage c :
  conversations st !! userPhone = Some c ->
  stage c = COMPLETED ->
  let st' := snd (handleConversation env userPhone userMessage st) in
  (if asks_restart userMessage
   then conversations st' !! userPhone = Some (mkConversation ASKED_FIRST_NAME empty_data) /\
        reply_between st st' = Some Reply.greeting /\
        handleConversation env userPhone userMessage st =
          handleConversation env userPhone "Hi" (with_conversations (delete userPhone) st)
   else conversations st' !! userPhone = Some c /\
        reply_between st st' = Some Reply.already_submitted) /\
  (forall env0 st0 p0 t0,
      stage (conversation_of st0 p0) = INITIAL ->
      reply_between st0 (snd (handleConversation env0 p0 t0 st0)) = Some Reply.greeting) /\
  (forall env0 st0 p0 t0,
      rank (stage (conversation_of (snd (handleConversation env0 p0 t0 st0)) p0)) <
      rank (stage (conversation_of st0 p0)) ->
      stage (conversation_of st0 p0) = COMPLETED /\ asks_restart t0 = true).
Proof.
  intros Hc Hs st'. subst st'.
  split; [| split; [| intros; by eapply rank_after]].
  - assert (Hd : decide_reply env userPhone userMessage st =
                 if asks_restart userMessage
                 then Some (mkConversation ASKED_FIRST_NAME empty_data, Reply.greeting,
                            with_conversations (delete userPhone) st)
                 else Some (c, Reply.already_submitted, st)).
    { unfold decide_reply, conversation_of. rewrite Hc. simpl. by rewrite Hs. }
    destruct (asks_restart userMessage);
      destruct (handleConversation_replying _ _ _ _ _ _ _ Hd) as (Hcs & Hr & _);
      rewrite Hcs, lookup_insert_eq; repeat split; try done.
    rewrite !handleConversation_spec, Hd.
    unfold decide_reply, conversation_of. simpl. by rewrite lookup_delete_eq.
  - intros env0 st0 p0 t0 H0.
    assert (Hd : decide_reply env0 p0 t0 st0 =
                 Some (set_stage ASKED_FIRST_NAME (conversation_of st0 p0), Reply.greeting, st0)).
    { unfold decide_reply. by rewrite H0. }
    by destruct (handleConversation_replying _ _ _ _ _ _ _ Hd) as (_ & Hr & _).
Qed.

Lemma completed_step_witness :
  conversations completed_server !! "15551234567" =
    Some (mkConversation COMPLETED
            (mkData (Some "John") (Some "Doe") (Some "john@x.com") (Some "555123")
                    (Some "need a website") (Some "15551234567"))) /\
  conversations
    (snd (handleConversation (env_ok "00Q1") "15551234567" "ReStart" completed_server))
    !! "15551234567" = Some (mkConversation ASKED_FIRST_NAME empty_data).
Proof.
  split; [reflexivity |].
  apply (completed_step (env_ok "00Q1") completed_server "15551234567" "ReStart" _
           eq_refl eq_refl).
Defined.

(** ** The webhook on a message with a sender *)

Lemma after_webhook_inbound env body m from st :
  incoming body = Some m ->
  msg_from m = Some from ->
  handoffMode st !! Js.replace_non_digits from <> Some true ->
  after_webhook env body st =
  snd (handleConversation env from (messageText_of m)
         (inbound_recorded env from (messageText_of m) st)).
Proof.
  intros Hb Hf Hh. unfold after_webhook. rewrite Hb, Hf.
  by rewrite bool_decide_eq_false_2.
Qed.

Lemma after_webhook_handoff env body m from st :
  incoming body = Some m ->
  msg_from m = Some from ->
  handoffMode st !! Js.replace_non_digits from = Some true ->
  after_webhook env body st = inbound_recorded env from (messageText_of m) st.
Proof.
  intros Hb Hf Hh. unfold after_webhook. rewrite Hb, Hf.
  by rewrite bool_decide_eq_true_2.
Qed.

Lemma reply_between_outbox st0 st st' :
  outbox st0 = outbox st -> reply_between st0 st' = reply_between st st'.
Proof. intros H. unfold reply_between, sent_between. by rewrite H. Qed.

(** ** C7: a failed lead creation *)

Lemma decide_reply_requirement env p m st c :
  conversations st !! p = Some c ->
  stage c = ASKED_REQUIREMENT ->
  decide_reply env p m st =
  let d := data (set_whatsappNumber p (set_requirement m c)) in
  let (leadId, st') := createLead env d st in
  if Js.truthy leadId
  then Some (mkConversation COMPLETED d,
             Reply.thank_you (firstName (data c)) (Js.interpolate leadId), st')
  else Some (mkConversation ASKED_REQUIREMENT d, Reply.lead_failed, st').
Proof.
  intros Hc Hs. unfold decide_reply, conversation_of. rewrite Hc.
  destruct c as [s d0]. simpl in *. subst s. reflexivity.
Qed.

(** C7.  When [createLeadInSalesforce] returns [null] (or an empty id) for a
    sender at ASKED_REQUIREMENT, the conversation stays at ASKED_REQUIREMENT,
    the reply is the failure message, and the same payload delivered again
    makes a second call of [createLeadInSalesforce] with the same data. *)
Theorem crm_failure_is_retryable env st body m from c returned :
  incoming body = Some m ->
  msg_from m = Some from ->
  Js.replace_non_digits from = from ->
  handoffMode st !! from <> Some true ->
  conversations st !! from = Some c ->
  stage c = ASKED_REQUIREMENT ->
  let text := messageText_of m in
  let d := data (set_whatsappNumber from (set_requirement text c)) in
  fst (createLeadInSalesforce env d (snd (storeMessage env from "customer" text st))) =
    Normal returned ->
  Js.truthy returned = false ->
  let st1 := snd (post_webhook env body st) in
  let st2 := snd (post_webhook env body st1) in
  conversations st1 !! from = Some (mkConversation ASKED_REQUIREMENT d) /\
  reply_between st st1 = Some Reply.lead_failed /\
  createLeadCalls st1 = (createLeadCalls st ++ [(d, returned)])%list /\
  (exists returned',
      createLeadCalls st2 = (createLeadCalls st1 ++ [(d, returned')])%list).
Proof.
  intros Hb Hf Hn Hh Hc Hs text d Hret Hfail st1 st2. subst text.
  set (text := messageText_of m) in *.
  subst st2 st1. rewrite !post_webhook_run. cbn [snd].
  set (st1 := after_webhook env body st).
  set (st2 := after_webhook env body st1).
  rewrite storeMessage_run in Hret. cbn [snd] in Hret.
  fold (inbound_recorded env from text st) in Hret.
  rewrite createLeadInSalesforce_run in Hret. cbn [fst] in Hret.
  injection Hret as Hret.
  assert (Hh' : handoffMode st !! Js.replace_non_digits from <> Some true) by by rewrite Hn.
  set (st0 := inbound_recorded env from text st) in *.
  assert (Hd : decide_reply env from text st0 =
               Some (mkConversation ASKED_REQUIREMENT d, Reply.lead_failed,
                     snd (createLead env d st0))).
  { rewrite (decide_reply_requirement env from text st0 c Hc Hs). cbv zeta. fold d.
    destruct (createLead env d st0) as [leadId st']. simpl in *. subst leadId.
    by rewrite Hfail. }
  destruct (handleConversation_replying _ _ _ _ _ _ _ Hd) as (Hcs & Hr & Hhm & Hcalls & _).
  destruct (createLead_frame env d st0) as (Fc & _ & _ & _ & Fcalls & _).
  assert (E1 : st1 = snd (handleConversation env from text st0))
    by (subst st1; by rewrite (after_webhook_inbound env body m from st Hb Hf Hh')).
  assert (Hc1 : conversations st1 !! from = Some (mkConversation ASKED_REQUIREMENT d))
    by (by rewrite E1, Hcs, lookup_insert_eq).
  split; [exact Hc1 |].
  split; [by rewrite E1, <- Hr; apply reply_between_outbox |].
  split; [by rewrite E1, Hcalls, Fcalls, Hret |].
  (* the second delivery *)
  assert (Hh1 : handoffMode st1 !! Js.replace_non_digits from <> Some true)
    by (by rewrite E1, Hhm).
  set (st0' := inbound_recorded env from text st1).
  assert (Hd' : exists r' c' st',
             decide_reply env from text st0' = Some (c', r', st') /\
             createLeadCalls st' =
               (createLeadCalls st0' ++ [(d, fst (createLead env d st0'))])%list).
  { rewrite (decide_reply_requirement env from text st0' _ Hc1 eq_refl). cbv zeta.
    replace (data (set_whatsappNumber from (set_requirement text _))) with d
      by (subst d; by destruct c as [s []]).
    destruct (createLead_frame env d st0') as (_ & _ & _ & _ & Fcalls' & _).
    destruct (createLead env d st0') as [leadId st']. simpl in *.
    destruct (Js.truthy leadId); eauto. }
  destruct Hd' as (r' & c' & st' & Hd' & Hcalls').
  destruct (handleConversation_replying _ _ _ _ _ _ _ Hd') as (_ & _ & _ & Hcalls2 & _).
  exists (fst (createLead env d st0')).
  subst st2. rewrite (after_webhook_inbound env body m from st1 Hb Hf Hh1).
  fold text st0'. by rewrite Hcalls2, Hcalls'.
Qed.

Lemma crm_failure_is_retryable_witness :
  let body := text_message "15551234567" "need a website" in
  let st1 := snd (post_webhook env_crm_fails body asked_requirement_server) in
  Js.replace_non_digits "15551234567" = "15551234567" /\
  handoffMode asked_requirement_server !! "15551234567" <> Some true /\
  stage (conversation_of st1 "15551234567") = ASKED_REQUIREMENT /\
  reply_between asked_requirement_server st1 = Some Reply.lead_failed /\
  length (createLeadCalls (snd (post_webhook env_crm_fails body st1))) = 2.
Proof.
  pose proof (crm_failure_is_retryable env_crm_fails asked_requirement_server
                (text_message "15551234567" "need a website") _ "15551234567" _ None
                eq_refl eq_refl eq_refl ltac:(discriminate) eq_refl eq_refl eq_refl eq_refl)
    as (H1 & H2 & H3 & (r2 & H4)).
  split; [reflexivity |]. split; [discriminate |].
  split; [unfold conversation_of; by rewrite H1 |].
  split; [exact H2 |].
  rewrite H4, H3. reflexivity.
Defined.

(** ** C2: a reply whose send fails *)

Lemma history_of_inbound_recorded env from text st :
  history_of (inbound_recorded env from text st) (Js.replace_non_digits from) =
  (history_of st (Js.replace_non_digits from) ++
   [mkMessageRecord "customer" text (now env (tick st))])%list.
Proof. unfold history_of, inbound_recorded, push_history. simpl. by rewrite lookup_insert_eq. Qed.

Lemma sent_between_nothing st st' : outbox st' = outbox st -> sent_between st st' = [].
Proof. intros H. unfold sent_between. rewrite H. apply drop_all. Qed.

(** C2, amended.  For an inbound message that gets a reply, the conversation
    is stored before the send is attempted and the bot record is pushed on
    the history after it: the store of conversations is the one a run with a
    transport that never fails ends with, whether the send succeeded or not,
    and the history gains the customer record followed by the bot record
    exactly when the send succeeded. *)
Theorem reply_commit_survives_send_failure env st body m from :
  incoming body = Some m ->
  msg_from m = Some from ->
  sent_between st (snd (post_webhook env body st)) <> [] ->
  let st' := snd (post_webhook env body st) in
  exists reply ok ts,
    head (sent_between st st') = Some (mkOutbound from reply ok) /\
    conversations st' =
      conversations (snd (post_webhook (always_delivering env) body st)) /\
    history_of st' (Js.replace_non_digits from) =
      (history_of st (Js.replace_non_digits from) ++
       mkMessageRecord "customer" (messageText_of m) (now env (tick st)) ::
       if ok then [mkMessageRecord "bot" reply ts] else [])%list.
Proof.
  intros Hb Hf Hsent st'. subst st'.
  rewrite !post_webhook_run in *. cbn [snd] in *.
  set (text := messageText_of m) in *.
  set (k := Js.replace_non_digits from) in *.
  destruct (decide (handoffMode st !! k = Some true)) as [Hh|Hh].
  { exfalso. apply Hsent. rewrite (after_webhook_handoff env body m from st Hb Hf Hh).
    by apply sent_between_nothing. }
  assert (E' : after_webhook (always_delivering env) body st =
               snd (handleConversation (always_delivering env) from text
                      (inbound_recorded env from text st)))
    by exact (after_webhook_inbound (always_delivering env) body m from st Hb Hf Hh).
  rewrite (after_webhook_inbound env body m from st Hb Hf Hh) in *. fold text in Hsent |- *.
  set (st0 := inbound_recorded env from text st) in *.
  assert (Hd' : decide_reply (always_delivering env) from text st0 = decide_reply env from text st0)
    by reflexivity.
  rewrite E'. clear E'.
  rewrite (handleConversation_spec (always_delivering env)), Hd'.
  rewrite handleConversation_spec in *.
  destruct (decide_reply env from text st0) as [[[c r] st1]|] eqn:Hd.
  2: { exfalso. apply Hsent. by apply sent_between_nothing. }
  destruct (decide_reply_frame _ _ _ _ _ _ _ Hd) as (Ho & Hm & _).
  destruct (deliver_outbox env from c r st1) as [rest Hrest].
  exists r, (bool_decide (axios_post env (tick st1) from r = None)), (now env (S (tick st1))).
  split; [| split].
  - unfold sent_between. rewrite Hrest, Ho.
    change (outbox st0) with (outbox st). by rewrite drop_app_length.
  - by rewrite !deliver_conversations.
  - unfold history_of at 1. rewrite deliver_messageHistory. fold k.
    pose proof (history_of_inbound_recorded env from text st) as Hin. fold k st0 in Hin.
    destruct (axios_post env (tick st1) from r).
    + rewrite bool_decide_eq_false_2 by congruence.
      rewrite Hm. fold (history_of st0 k). by rewrite Hin.
    + rewrite bool_decide_eq_true_2 by reflexivity.
      rewrite lookup_insert_eq. simpl. unfold history_of at 1. rewrite Hm.
      fold (history_of st0 k). rewrite Hin. by rewrite <- app_assoc.
Qed.

Lemma reply_commit_survives_send_failure_witness :
  let body := text_message "15551234567" "hi" in
  let st' := snd (post_webhook (env_send_fails "00Q1") body initial_server) in
  incoming body = Some (mkInMessage (Some "15551234567") (Some (mkTextPart (Some "hi")))) /\
  sent_between initial_server st' <> [] /\
  exists reply ok ts,
    head (sent_between initial_server st') = Some (mkOutbound "15551234567" reply ok) /\
    conversations st' =
      conversations
        (snd (post_webhook (always_delivering (env_send_fails "00Q1")) body initial_server)) /\
    history_of st' "15551234567" =
      (history_of initial_server "15551234567" ++
       mkMessageRecord "customer" "hi" "2024-01-01T00:00:00.000Z" ::
       if ok then [mkMessageRecord "bot" reply ts] else [])%list.
Proof.
  split; [reflexivity |]. split; [by vm_compute |].
  apply (reply_commit_survives_send_failure (env_send_fails "00Q1") initial_server
           (text_message "15551234567" "hi") _ "15551234567" eq_refl eq_refl).
  by vm_compute.
Defined.

(** C2 as stated fails: the greeting decided for a first message could not
    be sent, the stage ASKED_FIRST_NAME is stored all the same, and the
    history holds the customer record only: no bot record was pushed. *)
Lemma failed_send_leaves_no_bot_record :
  let st' := snd (post_webhook (env_send_fails "00Q1") (text_message "15551234567" "hi")
                    initial_server) in
  conversations st' !! "15551234567" = Some (mkConversation ASKED_FIRST_NAME empty_data) /\
  sent_between initial_server st' =
    [mkOutbound "15551234567" Reply.greeting false;
     mkOutbound "15551234567" Reply.went_wrong false] /\
  messageHistory st' !! "15551234567" =
    Some [mkMessageRecord "customer" "hi" "2024-01-01T00:00:00.000Z"].
Proof. vm_compute. by repeat split. Qed.

(** ** C3: the handoff flag *)

Lemma handleConversation_handoffMode env p m st :
  handoffMode (snd (handleConversation env p m st)) = handoffMode st.
Proof.
  destruct (decide_reply env p m st) as [[[c r] st1]|] eqn:Hd.
  - by destruct (handleConversation_replying _ _ _ _ _ _ _ Hd) as (_ & _ & H & _).
  - by rewrite handleConversation_spec, Hd.
Qed.

Lemma after_webhook_handoffMode env body st :
  handoffMode (after_webhook env body st) = handoffMode st.
Proof.
  unfold after_webhook.
  destruct (incoming body) as [m|]; [| reflexivity].
  destruct (msg_from m) as [from|]; [| reflexivity].
  case_bool_decide; [reflexivity |].
  by rewrite handleConversation_handoffMode.
Qed.

Lemma serve_keeps_handoff env r st s :
  handoffMode st !! s = Some true ->
  ~ resumes s r ->
  handoffMode (serve env r st) !! s = Some true.
Proof.
  intros Hs Hr. destruct r as [body|phoneNumber message|phoneNumber|phoneNumber]; simpl.
  - by rewrite post_webhook_run; simpl; rewrite after_webhook_handoffMode.
  - unfold post_api_send_message, try_catch.
    destruct phoneNumber as [p|], message as [msg|]; try done.
    destruct (_ || _); [done |].
    unfold bind at 1. rewrite sendWhatsAppMessage_run.
    destruct (axios_post env _ _ msg); [done |].
    unfold bind at 1. rewrite storeMessage_run.
    unfold bind, setHandoffMode, modify, get, ret. simpl.
    rewrite replace_non_digits_twice.
    destruct (decide (Js.replace_non_digits p = s)) as [->|Hne];
      [by rewrite lookup_insert_eq | by rewrite lookup_insert_ne].
  - done.
  - unfold post_api_resume_bot, try_catch.
    destruct phoneNumber as [p|]; [| done].
    unfold bind, setHandoffMode, modify, get, ret. simpl.
    rewrite replace_non_digits_twice.
    rewrite lookup_insert_ne; [done |].
    intros E. apply Hr. by exists p.
Qed.

Lemma serve_all_keeps_handoff env rs st s :
  handoffMode st !! s = Some true ->
  Forall (fun r => ~ resumes s r) rs ->
  handoffMode (serve_all env rs st) !! s = Some true.
Proof.
  intros Hs Hrs. revert st Hs.
  induction Hrs as [|r rs Hr _ IH]; intros st Hs; [exact Hs |].
  simpl. apply IH. by apply serve_keeps_handoff.
Qed.

(** C3.  Once the handoff flag of a sender is [true], after any run of
    requests without a [/api/resume-bot] for that sender, a message of that
    sender leaves every conversation and the flags as they are, sends
    nothing, and pushes exactly the customer record on the sender's
    history. *)
Theorem handoff_silences_bot env st rs s body m from :
  handoffMode st !! s = Some true ->
  Forall (fun r => ~ resumes s r) rs ->
  incoming body = Some m ->
  msg_from m = Some from ->
  Js.replace_non_digits from = s ->
  let st1 := serve_all env rs st in
  let st2 := serve env (PostWebhook body) st1 in
  conversations st2 = conversations st1 /\
  sent_between st1 st2 = [] /\
  handoffMode st2 = handoffMode st1 /\
  messageHistory st2 =
    <[s := (history_of st1 s ++
            [mkMessageRecord "customer" (messageText_of m) (now env (tick st1))])%list]>
      (messageHistory st1).
Proof.
  intros Hs Hrs Hb Hf Hk st1 st2.
  pose proof (serve_all_keeps_handoff env rs st s Hs Hrs) as H1. fold st1 in H1.
  subst st2. simpl. rewrite post_webhook_run. simpl.
  rewrite <- Hk in H1 |- *.
  rewrite (after_webhook_handoff env body m from st1 Hb Hf H1).
  repeat split. by apply sent_between_nothing.
Qed.

Lemma handoff_silences_bot_witness :
  let rs := [PostWebhook (text_message "15551234567" "hello");
             PostResumeBot (Some "+1 999");
             GetConversationHistory "15551234567";
             PostSendMessage (Some "1999") (Some "Hi there")] in
  let body := text_message "+15551234567" "anyone?" in
  let st1 := serve_all (env_ok "00Q1") rs handoff_server in
  let st2 := serve (env_ok "00Q1") (PostWebhook body) st1 in
  handoffMode handoff_server !! "15551234567" = Some true /\
  Js.replace_non_digits "+15551234567" = "15551234567" /\
  conversations st2 = conversations st1 /\
  sent_between st1 st2 = [] /\
  handoffMode st2 = handoffMode st1 /\
  messageHistory st2 =
    <["15551234567" :=
        (history_of st1 "15551234567" ++
         [mkMessageRecord "customer" "anyone?" (now (env_ok "00Q1") (tick st1))])%list]>
      (messageHistory st1).
Proof.
  intros rs body st1 st2.
  split; [reflexivity |]. split; [reflexivity |].
  assert (Hrs : Forall (fun r => ~ resumes "15551234567" r) rs).
  { repeat constructor; intros [p [E H]]; try discriminate.
    injection E as <-. vm_compute in H. discriminate. }
  exact (handoff_silences_bot (env_ok "00Q1") handoff_server rs "15551234567" body
           (mkInMessage (Some "+15551234567") (Some (mkTextPart (Some "anyone?"))))
           "+15551234567" eq_refl Hrs eq_refl eq_refl eq_refl).
Defined.

(** ** C9: payloads with a part missing *)

(** C9, amended.  A message without a sender is dropped: the handler ends
    without a change of the server, so no store is touched and nothing is
    sent.  A message with a sender and without a text is not dropped: it is
    handled as the empty text from that sender would be. *)
Theorem event_without_sender_is_dropped env st body m :
  incoming body = Some m ->
  (msg_from m = None -> post_webhook env body st = (Normal tt, st)) /\
  (forall from,
      msg_from m = Some from ->
      Js.opt (msg_text m) text_body = None ->
      post_webhook env body st = post_webhook env (text_message from "") st).
Proof.
  intros Hb. split.
  - intros Hf. rewrite post_webhook_run. unfold after_webhook. by rewrite Hb, Hf.
  - intros from Hf Ht. rewrite !post_webhook_run. f_equal.
    unfold after_webhook at 1. rewrite Hb, Hf.
    unfold messageText_of. rewrite Ht. reflexivity.
Qed.

Lemma event_without_sender_is_dropped_witness :
  incoming (senderless_message "hi") =
    Some (mkInMessage None (Some (mkTextPart (Some "hi")))) /\
  post_webhook (env_ok "00Q1") (senderless_message "hi") asked_email_server =
    (Normal tt, asked_email_server).
Proof.
  split; [reflexivity |].
  by apply (event_without_sender_is_dropped (env_ok "00Q1") asked_email_server
              (senderless_message "hi") _ eq_refl).
Defined.

(** C9 as stated fails: a first message without a text creates the history
    and the conversation of its sender, and the greeting is sent. *)
Lemma event_without_text_is_answered :
  let st' := snd (post_webhook (env_ok "00Q1") (textless_message "15551234567")
                    initial_server) in
  messageHistory st' !! "15551234567" =
    Some [mkMessageRecord "customer" "" "2024-01-01T00:00:00.000Z";
          mkMessageRecord "bot" Reply.greeting "2024-01-01T00:00:00.000Z"] /\
  conversations st' !! "15551234567" = Some (mkConversation ASKED_FIRST_NAME empty_data) /\
  sent_between initial_server st' = [mkOutbound "15551234567" Reply.greeting true].
Proof. vm_compute. by repeat split. Qed.

(** ** C10: a message of a sales agent *)

Lemma post_api_send_message_run env phoneNumber message st :
  post_api_send_message env phoneNumber message st =
  match phoneNumber, message with
  | Some p, Some msg =>
      if (p =? "") || (msg =? "") then
        (Normal (mkResponse 400 false None (Some "Phone number and message are required")), st)
      else
        let k := Js.replace_non_digits p in
        match axios_post env (tick st) k msg with
        | Some err =>
            (Normal (mkResponse 500 false None
                       (Some (if err =? "" then "Failed to send message" else err))),
             log_outbound (mkOutbound k msg false) (next_tick st))
        | None =>
            let st1 := log_outbound (mkOutbound k msg true) (next_tick st) in
            let st2 := push_history k (mkMessageRecord "sales" msg (now env (tick st1))) st1 in
            (Normal (mkResponse 200 true (Some "Message sent successfully") None),
             with_conversations (insert k (set_stage HANDOFF (conversation_of st k)))
               (with_handoffMode (insert k true) st2))
        end
  | _, _ =>
      (Normal (mkResponse 400 false None (Some "Phone number and message are required")), st)
  end.
Proof.
  unfold post_api_send_message, try_catch.
  destruct phoneNumber as [p|], message as [msg|]; try reflexivity.
  destruct (_ || _); [reflexivity |].
  unfold bind at 1. rewrite sendWhatsAppMessage_run.
  destruct (axios_post env _ _ msg) as [err|]; [reflexivity |].
  unfold bind at 1. rewrite storeMessage_run.
  unfold bind, setHandoffMode, modify, get, ret. simpl.
  by rewrite !replace_non_digits_twice.
Qed.

(** C10.  [/api/send-message] never throws.  When nothing was sent the
    request was refused with status 400; when the send failed the answer
    has status 500 and [success: false]; in both cases the three stores are
    as they were.  Only a delivered message is followed by the changes: the
    flag of the recipient is [true] and the recipient's stage is HANDOFF. *)
Theorem agent_override_sends_first env st phoneNumber message :
  let res := post_api_send_message env phoneNumber message st in
  exists r,
    fst res = Normal r /\
    match sent_between st (snd res) with
    | [] => success r = false /\ status r = 400 /\ stores_unchanged st (snd res)
    | [o] =>
        if delivered o
        then success r = true /\
             handoffMode (snd res) !! to o = Some true /\
             stage (conversation_of (snd res) (to o)) = HANDOFF
        else success r = false /\ status r = 500 /\ stores_unchanged st (snd res)
    | _ => False
    end.
Proof.
  rewrite post_api_send_message_run. unfold stores_unchanged.
  assert (H0 : sent_between st st = []) by by apply sent_between_nothing.
  destruct phoneNumber as [p|], message as [msg|];
    try (eexists; split; [reflexivity |]; simpl; rewrite H0; by repeat split).
  destruct (_ || _);
    [eexists; split; [reflexivity |]; simpl; rewrite H0; by repeat split |].
  destruct (axios_post env _ _ msg) as [err|];
    (eexists; split; [reflexivity |]); unfold sent_between; simpl;
    rewrite drop_app_length; simpl.
  - by repeat split.
  - rewrite lookup_insert_eq. unfold conversation_of. simpl.
    by rewrite lookup_insert_eq.
Qed.

(** An instance: the transport rejects the message of the agent. *)
Example agent_override_failed_send :
  post_api_send_message (env_send_fails "00Q1") (Some "+1 (555) 123-4567")
    (Some "We'll call you") asked_email_server =
  (Normal (mkResponse 500 false None (Some "Request failed")),
   log_outbound (mkOutbound "15551234567" "We'll call you" false)
     (next_tick asked_email_server)).
Proof. reflexivity. Qed.

(** ** C4: the key of the store of conversations *)

(** C4 fails on the code.  A first message from ["+15551234567"] is filed in
    the history under the digits ["15551234567"], but its conversation is
    stored under the raw text; a message from ["15551234567"], the same
    sender identity, then meets no conversation and is greeted again, so
    that the identity has two conversations; and the stage that
    [/api/send-message] sets under the digits does not reach the
    conversation stored under the raw text. *)
Lemma conversation_keyed_by_raw_sender :
  let st1 := serve (env_ok "00Q1") (PostWebhook (text_message "+15551234567" "hi"))
               initial_server in
  let st2 := serve (env_ok "00Q1") (PostWebhook (text_message "15551234567" "John")) st1 in
  let st3 := serve (env_ok "00Q1") (PostSendMessage (Some "+15551234567") (Some "Hello"))
               st1 in
  Js.replace_non_digits "+15551234567" = Js.replace_non_digits "15551234567" /\
  length (history_of st1 "15551234567") = 2 /\
  messageHistory st1 !! "+15551234567" = None /\
  conversations st1 !! "+15551234567" = Some (mkConversation ASKED_FIRST_NAME empty_data) /\
  conversations st1 !! "15551234567" = None /\
  reply_between st1 st2 = Some Reply.greeting /\
  conversations st2 !! "+15551234567" = Some (mkConversation ASKED_FIRST_NAME empty_data) /\
  conversations st2 !! "15551234567" = Some (mkConversation ASKED_FIRST_NAME empty_data) /\
  stage (conversation_of st3 "+15551234567") = ASKED_FIRST_NAME /\
  stage (conversation_of st3 "15551234567") = HANDOFF.
Proof. vm_compute. by repeat split. Qed.

(** ** C6: the happy path *)














(** An instance with a CRM that answers with the id ["00Q1"]. *)
Example happy_path_completed :
  let inbound t := PostWebhook (text_message "15551234567" t) in
  let st5 := serve_all (env_ok "00Q1")
               (map inbound ["hi"; "John"; "Doe"; "john@x.com"; "555123"]) initial_server in
  let st6 := serve (env_ok "00Q1") (inbound "need a website") st5 in
  stage (conversation_of st6 "15551234567") = COMPLETED /\
  reply_between st5 st6 = Some (Reply.thank_you (Some "John") "00Q1") /\
  map Company (leadsSubmitted st6) = ["John Doe"].
Proof. vm_compute. by repeat split. Qed.


(** * Further properties of the server *)

(** ** What a pass of [handleConversation] touches *)

Lemma decide_reply_conversations env p m st c r st1 :
  decide_reply env p m st = Some (c, r, st1) ->
  conversations st1 = conversations st \/
  (conversations st1 = delete p (conversations st) /\
   stage (conversation_of st p) = COMPLETED /\ asks_restart m = true).
Proof.
  unfold decide_reply.
  destruct (stage (conversation_of st p)) eqn:Hs; try (intros [= <- <- <-]; by left).
  - destruct (_ || _); intros [= <- <- <-]; by left.
  - pose proof (createLead_frame env
      (data (set_whatsappNumber p (set_requirement m (conversation_of st p)))) st) as F.
    destruct (createLead env _ st) as [leadId st'']; simpl in F.
    destruct F as (F1 & _).
    destruct (Js.truthy leadId); intros [= <- <- <-]; by left.
  - destruct (asks_restart m); intros [= <- <- <-]; [by right | by left].
Qed.

Lemma deliver_sent env p c r st :
  exists l,
    outbox (snd (deliver env p c r st)) = (outbox st ++ l)%list /\
    (l = [mkOutbound p r true] /\ fst (deliver env p c r st) = Normal tt \/
     l = [mkOutbound p r false; mkOutbound p Reply.went_wrong true] /\
       fst (deliver env p c r st) = Normal tt \/
     l = [mkOutbound p r false; mkOutbound p Reply.went_wrong false] /\
       exists msg, fst (deliver env p c r st) = Throw (AxiosError msg)).
Proof.
  unfold deliver. simpl.
  destruct (axios_post env (tick st) p r).
  - destruct (axios_post env _ p Reply.went_wrong); simpl;
      rewrite <- app_assoc; eexists; (split; [reflexivity |]); eauto.
  - eexists. split; [reflexivity |]. eauto.
Qed.

Lemma sent_between_app st st' l :
  outbox st' = (outbox st ++ l)%list -> sent_between st st' = l.
Proof. intros H. unfold sent_between. by rewrite H, drop_app_length. Qed.

(** One pass leaves the conversations and histories of the other keys and
    all the flags as they are, removes no entry, and extends the history of
    the sender at its end. *)
Lemma handleConversation_frame env p m st :
  let st' := snd (handleConversation env p m st) in
  (forall k, k <> p -> conversations st' !! k = conversations st !! k) /\
  (is_Some (conversations st !! p) -> is_Some (conversations st' !! p)) /\
  handoffMode st' = handoffMode st /\
  (forall k, k <> Js.replace_non_digits p -> messageHistory st' !! k = messageHistory st !! k) /\
  (is_Some (messageHistory st !! Js.replace_non_digits p) ->
   is_Some (messageHistory st' !! Js.replace_non_digits p)) /\
  history_of st (Js.replace_non_digits p) `prefix_of` history_of st' (Js.replace_non_digits p).
Proof.
  intros st'. subst st'. rewrite handleConversation_spec.
  destruct (decide_reply env p m st) as [[[c r] st1]|] eqn:Hd; [| by repeat split].
  destruct (decide_reply_frame _ _ _ _ _ _ _ Hd) as (_ & Hm & Hh).
  rewrite deliver_conversations, deliver_handoffMode, Hh.
  unfold history_of at 2. rewrite deliver_messageHistory, Hm.
  split; [| split; [| split; [done |]]].
  - intros k Hk. rewrite lookup_insert_ne by done.
    destruct (decide_reply_conversations _ _ _ _ _ _ _ Hd) as [-> | (-> & _)];
      [done | by rewrite lookup_delete_ne].
  - intros _. rewrite lookup_insert_eq. eauto.
  - destruct (axios_post env (tick st1) p r); [by repeat split |].
    split; [intros k Hk; by rewrite lookup_insert_ne |].
    split; [intros _; rewrite lookup_insert_eq; eauto |].
    rewrite lookup_insert_eq. simpl. unfold history_of. rewrite Hm.
    by apply prefix_app_r.
Qed.

Lemma decide_reply_none env p m st :
  decide_reply env p m st = None -> stage (conversation_of st p) = HANDOFF.
Proof.
  unfold decide_reply.
  destruct (stage (conversation_of st p)); try discriminate; [| | | done].
  - by destruct (_ || _).
  - destruct (createLead env _ st) as [leadId st1]. by destruct (Js.truthy leadId).
  - by destruct (asks_restart m).
Qed.

Lemma handleConversation_sent env p m st :
  let res := handleConversation env p m st in
  match sent_between st (snd res) with
  | [] => fst res = Normal tt /\ snd res = st /\ stage (conversation_of st p) = HANDOFF
  | [o] => o = mkOutbound p (body o) true /\ fst res = Normal tt
  | [o1; o2] =>
      o1 = mkOutbound p (body o1) false /\
      to o2 = p /\ body o2 = Reply.went_wrong /\
      if delivered o2 then fst res = Normal tt
      else exists msg, fst res = Throw (AxiosError msg)
  | _ => False
  end.
Proof.
  intros res. subst res. rewrite handleConversation_spec.
  destruct (decide_reply env p m st) as [[[c r] st1]|] eqn:Hd.
  - destruct (decide_reply_frame _ _ _ _ _ _ _ Hd) as (Ho & _).
    destruct (deliver_sent env p c r st1) as (l & Hl & Hcase).
    rewrite Ho in Hl. rewrite (sent_between_app _ _ _ Hl).
    destruct Hcase as [[-> H] | [[-> H] | [-> H]]]; by simpl.
  - simpl. rewrite sent_between_nothing by done.
    repeat split. by apply decide_reply_none in Hd.
Qed.

(** ** Errors of the reply path *)

(** X1.  The webhook handler never throws.  A pass of [handleConversation]
    sends nothing only for a conversation at HANDOFF, which it leaves alone;
    otherwise it sends the reply and, only when that send was rejected, the
    apology; it throws exactly when the apology is rejected too. *)
Theorem reply_errors_stay_inside env st :
  (forall body, fst (post_webhook env body st) = Normal tt) /\
  forall userPhone userMessage,
    let res := handleConversation env userPhone userMessage st in
    match sent_between st (snd res) with
    | [] => fst res = Normal tt /\ snd res = st /\
            stage (conversation_of st userPhone) = HANDOFF
    | [o] => o = mkOutbound userPhone (body o) true /\ fst res = Normal tt
    | [o1; o2] =>
        o1 = mkOutbound userPhone (body o1) false /\
        to o2 = userPhone /\ body o2 = Reply.went_wrong /\
        if delivered o2 then fst res = Normal tt
        else exists msg, fst res = Throw (AxiosError msg)
    | _ => False
    end.
Proof.
  split; [intros body; by rewrite post_webhook_run |].
  intros p m. apply handleConversation_sent.
Qed.

(** ** The webhook and the other senders *)

Lemma handleConversation_recipients env p m st :
  Forall (fun o => to o = p) (sent_between st (snd (handleConversation env p m st))).
Proof.
  pose proof (handleConversation_sent env p m st) as H. cbv zeta in H.
  destruct (sent_between st _) as [|o1 [|o2 [|o3 l]]]; [constructor | | | done].
  - destruct H as [-> _]. by repeat constructor.
  - destruct H as (-> & H2 & _). by repeat constructor.
Qed.

Lemma reply_between_outbox_sent st0 st st' :
  outbox st0 = outbox st -> sent_between st0 st' = sent_between st st'.
Proof. intros H. unfold sent_between. by rewrite H. Qed.

Lemma inbound_recorded_lookup env from text st k :
  k <> Js.replace_non_digits from ->
  messageHistory (inbound_recorded env from text st) !! k = messageHistory st !! k.
Proof. intros H. unfold inbound_recorded, push_history. simpl. by rewrite lookup_insert_ne. Qed.

Lemma after_webhook_sender env st body m from :
  incoming body = Some m ->
  msg_from m = Some from ->
  let st' := after_webhook env body st in
  (forall k, k <> from -> conversations st' !! k = conversations st !! k) /\
  (forall k, k <> Js.replace_non_digits from ->
             messageHistory st' !! k = messageHistory st !! k) /\
  handoffMode st' = handoffMode st /\
  Forall (fun o => to o = from) (sent_between st st') /\
  (history_of st (Js.replace_non_digits from) ++
   [mkMessageRecord "customer" (messageText_of m) (now env (tick st))])%list
    `prefix_of` history_of st' (Js.replace_non_digits from).
Proof.
  intros Hb Hf st'. subst st'.
  split; [| split; [| split; [apply after_webhook_handoffMode |]]].
  all: unfold after_webhook; rewrite Hb, Hf; case_bool_decide as Hh.
  - done.
  - intros k Hk.
    by destruct (handleConversation_frame env from (messageText_of m)
                   (inbound_recorded env from (messageText_of m) st)) as (H & _);
      rewrite (H k Hk).
  - intros k Hk. by apply inbound_recorded_lookup.
  - intros k Hk.
    destruct (handleConversation_frame env from (messageText_of m)
                (inbound_recorded env from (messageText_of m) st)) as (_ & _ & _ & H & _).
    rewrite (H k Hk). by apply inbound_recorded_lookup.
  - split; [by rewrite sent_between_nothing |].
    by rewrite history_of_inbound_recorded.
  - split.
    + pose proof (handleConversation_recipients env from (messageText_of m)
                    (inbound_recorded env from (messageText_of m) st)) as H.
      by rewrite (reply_between_outbox_sent _ st) in H by done.
    + destruct (handleConversation_frame env from (messageText_of m)
                  (inbound_recorded env from (messageText_of m) st))
        as (_ & _ & _ & _ & _ & H).
      by rewrite history_of_inbound_recorded in H.
Qed.



(** ** Requests never remove what the stores hold *)

Lemma post_api_resume_bot_run phoneNumber st :
  post_api_resume_bot phoneNumber st =
  match phoneNumber with
  | None =>
      (Normal (mkResponse 500 false None
                 (Some "Cannot read properties of undefined (reading 'replace')")), st)
  | Some p =>
      let k := Js.replace_non_digits p in
      (Normal (mkResponse 200 true (Some "Bot resumed") None),
       with_conversations
         (insert k (set_stage COMPLETED
                      (default (mkConversation COMPLETED empty_data) (conversations st !! k))))
         (with_handoffMode (insert k false) st))
  end.
Proof.
  unfold post_api_resume_bot, try_catch.
  destruct phoneNumber as [p|]; [| reflexivity].
  unfold bind, setHandoffMode, modify, get, ret. simpl.
  by rewrite !replace_non_digits_twice.
Qed.

Lemma after_webhook_history env body st k :
  history_of st k `prefix_of` history_of (after_webhook env body st) k.
Proof.
  unfold after_webhook.
  destruct (incoming body) as [m|]; [| done].
  destruct (msg_from m) as [from|]; [| done].
  set (st0 := inbound_recorded env from (messageText_of m) st).
  assert (H0 : history_of st k `prefix_of` history_of st0 k).
  { destruct (decide (k = Js.replace_non_digits from)) as [->|Hk].
    - subst st0. rewrite history_of_inbound_recorded. by apply prefix_app_r.
    - unfold history_of. subst st0. by rewrite inbound_recorded_lookup. }
  case_bool_decide; [done |].
  etrans; [exact H0 |].
  destruct (handleConversation_frame env from (messageText_of m) st0)
    as (_ & _ & _ & Hne & _ & Hp).
  destruct (decide (k = Js.replace_non_digits from)) as [->|Hk]; [done |].
  unfold history_of. by rewrite (Hne k Hk).
Qed.

Lemma serve_history env r st k :
  history_of st k `prefix_of` history_of (serve env r st) k.
Proof.
  destruct r as [body|phoneNumber message|phoneNumber|phoneNumber]; simpl.
  - rewrite post_webhook_run. apply after_webhook_history.
  - rewrite post_api_send_message_run.
    destruct phoneNumber as [p|], message as [msg|]; try done.
    destruct (_ || _); [done |]. cbv zeta.
    destruct (axios_post env _ _ msg); [done |].
    unfold history_of. simpl.
    destruct (decide (k = Js.replace_non_digits p)) as [->|Hk].
    + rewrite lookup_insert_eq. simpl. by apply prefix_app_r.
    + by rewrite lookup_insert_ne.
  - done.
  - rewrite post_api_resume_bot_run. by destruct phoneNumber.
Qed.

(** X3.  The history of every identity only grows at its end: over any run
    of requests, what it held before is a prefix of what it holds after. *)
Theorem history_is_append_only env rs st cleanPhone :
  history_of st cleanPhone `prefix_of` history_of (serve_all env rs st) cleanPhone.
Proof.
  revert st. induction rs as [|r rs IH]; intros st; [done |].
  simpl. etrans; [apply serve_history | apply IH].
Qed.

Lemma after_webhook_keeps env body st :
  dom (conversations st) ⊆ dom (conversations (after_webhook env body st)) /\
  dom (messageHistory st) ⊆ dom (messageHistory (after_webhook env body st)).
Proof.
  unfold after_webhook.
  destruct (incoming body) as [m|]; [| done].
  destruct (msg_from m) as [from|]; [| done].
  set (st0 := inbound_recorded env from (messageText_of m) st).
  assert (H0 : dom (messageHistory st) ⊆ dom (messageHistory st0)).
  { subst st0. unfold inbound_recorded, push_history. simpl.
    rewrite dom_insert_L. set_solver. }
  case_bool_decide; [done |].
  destruct (handleConversation_frame env from (messageText_of m) st0)
    as (Hc & Hcp & _ & Hm & Hmp & _).
  split.
  - intros k Hk. apply elem_of_dom. apply elem_of_dom in Hk.
    destruct (decide (k = from)) as [->|Hne]; [by apply Hcp | by rewrite (Hc k Hne)].
  - etrans; [exact H0 |].
    intros k Hk. apply elem_of_dom. apply elem_of_dom in Hk.
    destruct (decide (k = Js.replace_non_digits from)) as [->|Hne];
      [by apply Hmp | by rewrite (Hm k Hne)].
Qed.

Lemma serve_keeps env r st :
  dom (conversations st) ⊆ dom (conversations (serve env r st)) /\
  dom (messageHistory st) ⊆ dom (messageHistory (serve env r st)) /\
  dom (handoffMode st) ⊆ dom (handoffMode (serve env r st)).
Proof.
  destruct r as [body|phoneNumber message|phoneNumber|phoneNumber]; simpl.
  - rewrite post_webhook_run. cbn [snd]. rewrite after_webhook_handoffMode.
    destruct (after_webhook_keeps env body st). by repeat split.
  - rewrite post_api_send_message_run.
    destruct phoneNumber as [p|], message as [msg|]; try done.
    destruct (_ || _); [done |]. cbv zeta.
    destruct (axios_post env _ _ msg); [done |].
    simpl. rewrite !dom_insert_L. set_solver.
  - done.
  - rewrite post_api_resume_bot_run. destruct phoneNumber; [| done].
    simpl. rewrite !dom_insert_L. set_solver.
Qed.

Lemma serve_all_keeps env rs st :
  dom (conversations st) ⊆ dom (conversations (serve_all env rs st)) /\
  dom (messageHistory st) ⊆ dom (messageHistory (serve_all env rs st)) /\
  dom (handoffMode st) ⊆ dom (handoffMode (serve_all env rs st)).
Proof.
  revert st. induction rs as [|r rs IH]; intros st; [done |].
  simpl. destruct (serve_keeps env r st) as (H1 & H2 & H3).
  destruct (IH (serve env r st)) as (I1 & I2 & I3).
  repeat split; etrans; eauto.
Qed.

(** X4.  No request removes a sender from a store: over any run of requests
    the keys of the three stores only grow, so none of the three counters
    that [/health] reports ever decreases; in particular a sender whose bot
    was resumed still counts as a handoff session. *)
Theorem health_counters_never_decrease env rs st :
  let st' := serve_all env rs st in
  dom (conversations st) ⊆ dom (conversations st') /\
  dom (messageHistory st) ⊆ dom (messageHistory st') /\
  dom (handoffMode st) ⊆ dom (handoffMode st') /\
  (forall h h' s s',
      get_health env st = (Normal h, s) ->
      get_health env st' = (Normal h', s') ->
      hl_activeConversations h <= hl_activeConversations h' /\
      hl_storedHistories h <= hl_storedHistories h' /\
      hl_handoffSessions h <= hl_handoffSessions h') /\
  (forall p,
      Js.replace_non_digits p ∈
        dom (handoffMode (serve env (PostResumeBot (Some p)) st)) /\
      handoffMode (serve env (PostResumeBot (Some p)) st) !! Js.replace_non_digits p
        = Some false).
Proof.
  intros st'. destruct (serve_all_keeps env rs st) as (H1 & H2 & H3). fold st' in H1, H2, H3.
  split; [done |]. split; [done |]. split; [done |]. split.
  - unfold get_health, bind, get, modify, ret. intros h h' s s' [= <- _] [= <- _]. simpl.
    rewrite <- !size_dom. repeat split; by apply subseteq_size.
  - intros p. cbn [serve]. rewrite post_api_resume_bot_run. simpl.
    rewrite dom_insert_L, lookup_insert_eq. split; [set_solver | done].
Qed.

(** ** The history endpoint *)

(** X5.  What [storeMessage] files under one spelling of a number,
    [/api/conversation-history] returns under every spelling with the same
    digits: the messages held before followed by the new record, with the
    count one higher, and the query leaves the server as it is. *)
Theorem stored_message_is_returned env phoneNumber queried sender message st :
  Js.replace_non_digits phoneNumber = Js.replace_non_digits queried ->
  let st1 := snd (storeMessage env phoneNumber sender message st) in
  get_api_conversation_history queried st1 =
  (Normal
     (mkHistoryResponse true (Js.replace_non_digits phoneNumber)
        (S (length (history_of st (Js.replace_non_digits phoneNumber))))
        (history_of st (Js.replace_non_digits phoneNumber) ++
         [mkMessageRecord sender message (now env (tick st))])),
   st1).
Proof.
  intros Hq st1. subst st1. rewrite storeMessage_run. cbn [snd].
  unfold get_api_conversation_history, bind, get, ret. rewrite <- Hq.
  unfold push_history. simpl. rewrite lookup_insert_eq. simpl.
  rewrite length_app. simpl. by rewrite Nat.add_1_r.
Qed.

Lemma stored_message_is_returned_witness :
  Js.replace_non_digits "+1 (555) 123-4567" = Js.replace_non_digits "15551234567" /\
  get_api_conversation_history "15551234567"
    (snd (storeMessage (env_ok "00Q1") "+1 (555) 123-4567" "sales" "Hello" initial_server)) =
  (Normal
     (mkHistoryResponse true "15551234567" 1
        [mkMessageRecord "sales" "Hello" "2024-01-01T00:00:00.000Z"]),
   snd (storeMessage (env_ok "00Q1") "+1 (555) 123-4567" "sales" "Hello" initial_server)).
Proof.
  split; [reflexivity |].
  exact (stored_message_is_returned (env_ok "00Q1") "+1 (555) 123-4567" "15551234567"
           "sales" "Hello" initial_server eq_refl).
Defined.

(** X6.  [/api/conversation-history] reads only: the server is unchanged,
    the count is the length of the list returned, the answer is the same
    for two spellings with the same digits, and a sender without history
    gets the empty list and the count 0 rather than an error. *)
Theorem history_query_reads_only phoneNumber st :
  exists r,
    get_api_conversation_history phoneNumber st = (Normal r, st) /\
    h_success r = true /\
    h_messageCount r = length (h_messages r) /\
    h_messages r = history_of st (h_phoneNumber r) /\
    (messageHistory st !! Js.replace_non_digits phoneNumber = None ->
     h_messages r = [] /\ h_messageCount r = 0) /\
    (forall other,
        Js.replace_non_digits other = Js.replace_non_digits phoneNumber ->
        get_api_conversation_history other st = (Normal r, st)).
Proof.
  unfold get_api_conversation_history, bind, get, ret.
  eexists. split; [reflexivity |]. simpl.
  split; [done |]. split; [done |]. split; [done |]. split.
  - intros Hnone. by rewrite Hnone.
  - by intros other ->.
Qed.

(** ** Resuming the bot *)

Lemma inbound_step env body m from st c r st1 :
  incoming body = Some m ->
  msg_from m = Some from ->
  handoffMode st !! Js.replace_non_digits from <> Some true ->
  decide_reply env from (messageText_of m)
    (inbound_recorded env from (messageText_of m) st) = Some (c, r, st1) ->
  let st' := snd (post_webhook env body st) in
  conversations st' = <[from := c]> (conversations st1) /\
  reply_between st st' = Some r /\
  handoffMode st' = handoffMode st /\
  createLeadCalls st' = createLeadCalls st1 /\
  leadsSubmitted st' = leadsSubmitted st1 /\
  sfConnection st' = sfConnection st1.
Proof.
  intros Hb Hf Hh Hd st'. subst st'. rewrite post_webhook_run. cbn [snd].
  rewrite (after_webhook_inbound env body m from st Hb Hf Hh).
  destruct (handleConversation_replying _ _ _ _ _ _ _ Hd) as (H1 & H2 & H3 & H4).
  split; [exact H1 |]. split; [| split; [exact H3 | exact H4]].
  rewrite <- H2. by apply reply_between_outbox.
Qed.

(** X7.  [/api/resume-bot] for a number clears the flag of its identity and
    puts its conversation at COMPLETED with the data it had (a sender
    without conversation gets one with empty data); without a number it
    answers 500 and changes nothing.  The next message of the sender is
    therefore answered with the already-submitted notice, also when the
    sender never finished or never started the script, unless its text is
    the restart word, which starts the script over. *)
Theorem resumed_sender_must_restart env st phoneNumber body m :
  incoming body = Some m ->
  msg_from m = Some (Js.replace_non_digits phoneNumber) ->
  let k := Js.replace_non_digits phoneNumber in
  let st1 := snd (post_api_resume_bot (Some phoneNumber) st) in
  let st2 := snd (post_webhook env body st1) in
  let kept := data (default (mkConversation COMPLETED empty_data) (conversations st !! k)) in
  fst (post_api_resume_bot (Some phoneNumber) st) =
    Normal (mkResponse 200 true (Some "Bot resumed") None) /\
  post_api_resume_bot None st =
    (Normal (mkResponse 500 false None
               (Some "Cannot read properties of undefined (reading 'replace')")), st) /\
  handoffMode st1 !! k = Some false /\
  conversations st1 !! k = Some (mkConversation COMPLETED kept) /\
  messageHistory st1 = messageHistory st /\
  if asks_restart (messageText_of m)
  then conversations st2 !! k = Some (mkConversation ASKED_FIRST_NAME empty_data) /\
       reply_between st1 st2 = Some Reply.greeting
  else conversations st2 !! k = Some (mkConversation COMPLETED kept) /\
       reply_between st1 st2 = Some Reply.already_submitted.
Proof.
  intros Hb Hf k st1 st2 kept. subst st1 st2.
  rewrite !post_api_resume_bot_run. cbn [fst snd]. fold k.
  set (st1 := with_conversations _ _).
  assert (Hc1 : conversations st1 !! k = Some (mkConversation COMPLETED kept))
    by (subst st1; simpl; by rewrite lookup_insert_eq).
  assert (Hh1 : handoffMode st1 !! Js.replace_non_digits k <> Some true).
  { subst st1 k. simpl. rewrite replace_non_digits_twice, lookup_insert_eq. congruence. }
  split; [done |]. split; [done |].
  split; [subst st1; simpl; by rewrite lookup_insert_eq |].
  split; [done |]. split; [done |].
  set (text := messageText_of m).
  assert (Hd : decide_reply env k text (inbound_recorded env k text st1) =
               if asks_restart text
               then Some (mkConversation ASKED_FIRST_NAME empty_data, Reply.greeting,
                          with_conversations (delete k) (inbound_recorded env k text st1))
               else Some (mkConversation COMPLETED kept, Reply.already_submitted,
                          inbound_recorded env k text st1)).
  { unfold decide_reply, conversation_of.
    change (conversations (inbound_recorded env k text st1)) with (conversations st1).
    by rewrite Hc1. }
  destruct (asks_restart text);
    destruct (inbound_step env body m k st1 _ _ _ Hb Hf Hh1 Hd) as (C & R & _);
    by rewrite C, lookup_insert_eq.
Qed.

Lemma resumed_sender_must_restart_witness :
  let body := text_message "15551234567" "hello" in
  let st1 := snd (post_api_resume_bot (Some "+1 (555) 123-4567") asked_email_server) in
  let st2 := snd (post_webhook (env_ok "00Q1") body st1) in
  incoming body = Some (mkInMessage (Some "15551234567") (Some (mkTextPart (Some "hello")))) /\
  conversations st2 !! "15551234567" =
    Some (mkConversation COMPLETED (mkData (Some "John") (Some "Doe") None None None None)) /\
  reply_between st1 st2 = Some Reply.already_submitted.
Proof.
  split; [reflexivity |].
  pose proof (resumed_sender_must_restart (env_ok "00Q1") asked_email_server
                "+1 (555) 123-4567" (text_message "15551234567" "hello") _ eq_refl eq_refl)
    as (_ & _ & _ & _ & _ & H).
  exact H.
Defined.

(** ** Handing a conversation to an agent and back *)

(** X8.  A delivered message of an agent followed by [/api/resume-bot], under
    any two spellings of the number: the agent's message is the last record
    of the history, the flag goes to [true] and back to [false], and the
    conversation ends at COMPLETED with the data it had before, whatever its
    stage was, so that a form that was being filled cannot be continued.
    Conversations under other keys are not touched. *)
Theorem handoff_then_resume env st phoneNumber resumed message :
  Js.replace_non_digits phoneNumber = Js.replace_non_digits resumed ->
  phoneNumber <> "" ->
  message <> "" ->
  axios_post env (tick st) (Js.replace_non_digits phoneNumber) message = None ->
  let k := Js.replace_non_digits phoneNumber in
  let st1 := snd (post_api_send_message env (Some phoneNumber) (Some message) st) in
  let st2 := snd (post_api_resume_bot (Some resumed) st1) in
  handoffMode st1 !! k = Some true /\
  conversations st1 !! k = Some (mkConversation HANDOFF (data (conversation_of st k))) /\
  history_of st1 k =
    (history_of st k ++ [mkMessageRecord "sales" message (now env (S (tick st)))])%list /\
  handoffMode st2 !! k = Some false /\
  conversations st2 !! k = Some (mkConversation COMPLETED (data (conversation_of st k))) /\
  messageHistory st2 = messageHistory st1 /\
  forall other, other <> k -> conversations st2 !! other = conversations st !! other.
Proof.
  intros Hq Hp Hm Hsend k st1 st2. subst st2 st1 k.
  rewrite post_api_resume_bot_run, post_api_send_message_run. rewrite <- Hq.
  apply String.eqb_neq in Hp, Hm. rewrite Hp, Hm. cbn [orb]. cbv zeta.
  rewrite Hsend. cbn [snd]. unfold history_of. simpl.
  rewrite !lookup_insert_eq. repeat split.
  intros other Hne. by rewrite !lookup_insert_ne.
Qed.

Lemma handoff_then_resume_witness :
  let st1 := snd (post_api_send_message (env_ok "00Q1") (Some "+1 (555) 123-4567")
                    (Some "We'll call you") asked_email_server) in
  let st2 := snd (post_api_resume_bot (Some "15551234567") st1) in
  Js.replace_non_digits "+1 (555) 123-4567" = Js.replace_non_digits "15551234567" /\
  handoffMode st1 !! "15551234567" = Some true /\
  handoffMode st2 !! "15551234567" = Some false /\
  conversations st2 !! "15551234567" =
    Some (mkConversation COMPLETED (mkData (Some "John") (Some "Doe") None None None None)).
Proof.
  pose proof (handoff_then_resume (env_ok "00Q1") asked_email_server "+1 (555) 123-4567"
                "15551234567" "We'll call you" eq_refl ltac:(discriminate)
                ltac:(discriminate) eq_refl) as (H1 & _ & _ & H4 & H5 & _).
  split; [reflexivity |]. split; [exact H1 |]. split; [exact H4 | exact H5].
Defined.

(** ** Payloads the webhook ignores *)

(** X9.  A payload is ignored, with no change of the server, when its
    [object] is not the WhatsApp business account, when the path
    [entry[0].changes[0].value.messages] leads nowhere, or when [messages]
    is an empty array (the [TypeError] of reading its first element is
    caught). *)
Theorem foreign_payload_is_ignored env st body :
  object body <> Some "whatsapp_business_account" \/
  Js.opt (Js.opt (Js.at0 (Js.opt (Js.at0 (entry body)) changes)) value) messages = None \/
  Js.opt (Js.opt (Js.at0 (Js.opt (Js.at0 (entry body)) changes)) value) messages = Some [] ->
  post_webhook env body st = (Normal tt, st).
Proof.
  intros H. unfold post_webhook, try_catch.
  case_bool_decide as Ho; [| reflexivity].
  destruct H as [H | [-> | ->]]; [done | reflexivity | reflexivity].
Qed.

Lemma foreign_payload_is_ignored_witness :
  post_webhook (env_ok "00Q1")
    (mkWebhookBody (Some "whatsapp_business_account")
       (Some [mkEntry (Some [mkChange (Some (mkValue (Some [])))])]))
    asked_email_server = (Normal tt, asked_email_server).
Proof.
  apply (foreign_payload_is_ignored (env_ok "00Q1") asked_email_server).
  right. right. reflexivity.
Defined.

(** ** Creating leads *)

(** X10.  [createLeadInSalesforce] never throws.  With a connection it makes
    no login and returns the id exactly when [create] resolves with
    [success]; without one it logs in first, and when the login fails it
    returns [null] without handing any record to Salesforce.  A connection
    is never dropped. *)
Theorem createLead_outcomes env d st :
  exists returned st',
    createLeadInSalesforce env d st = (Normal returned, st') /\
    (sfConnection st = true -> sfConnection st' = true) /\
    (if sfConnection st
     then returned =
            match sf_create env (tick st) (leadRecord_of d) with
            | CreateResolved true id => Some id
            | _ => None
            end /\
          leadsSubmitted st' = (leadsSubmitted st ++ [leadRecord_of d])%list /\
          tick st' = S (tick st)
     else if sf_login env (tick st)
     then sfConnection st' = true /\
          returned =
            match sf_create env (S (tick st)) (leadRecord_of d) with
            | CreateResolved true id => Some id
            | _ => None
            end /\
          leadsSubmitted st' = (leadsSubmitted st ++ [leadRecord_of d])%list
     else returned = None /\ sfConnection st' = false /\
          leadsSubmitted st' = leadsSubmitted st).
Proof.
  unfold createLeadInSalesforce, try_catch, connectToSalesforce, bind, get, modify, ret, throw.
  destruct (sfConnection st) eqn:Hsf; simpl.
  - rewrite Hsf. destruct (sf_create env _ _) as [msg|[] id]; simpl;
      do 2 eexists; (split; [reflexivity |]); simpl; by rewrite ?Hsf.
  - destruct (sf_login env (tick st)); simpl.
    + destruct (sf_create env _ _) as [msg|[] id]; simpl;
        do 2 eexists; (split; [reflexivity |]); simpl; by repeat split.
    + rewrite Hsf. simpl. do 2 eexists. split; [reflexivity |]. simpl.
      by rewrite Hsf.
Qed.

Lemma decide_reply_leads env p m st c r st1 :
  decide_reply env p m st = Some (c, r, st1) ->
  (createLeadCalls st1 = createLeadCalls st /\ leadsSubmitted st1 = leadsSubmitted st) \/
  exists c0 returned,
    conversations st !! p = Some c0 /\ stage c0 = ASKED_REQUIREMENT /\
    createLeadCalls st1 =
      (createLeadCalls st ++
       [(data (set_whatsappNumber p (set_requirement m c0)), returned)])%list /\
    leadsSubmitted st1 =
      (leadsSubmitted st ++
       if sfConnection st1
       then [leadRecord_of (data (set_whatsappNumber p (set_requirement m c0)))]
       else [])%list.
Proof.
  unfold decide_reply, conversation_of.
  destruct (conversations st !! p) as [c0|] eqn:Hc; simpl;
    [| intros [= <- <- <-]; by left].
  destruct (stage c0) eqn:Hs; try (intros [= <- <- <-]; by left).
  - destruct (_ || _); intros [= <- <- <-]; by left.
  - pose proof (createLead_frame env
      (data (set_whatsappNumber p (set_requirement m c0))) st) as F.
    destruct (createLead env _ st) as [leadId st'']; simpl in F.
    destruct F as (_ & _ & _ & _ & F5 & F6).
    destruct (Js.truthy leadId); intros [= <- <- <-]; right;
      exists c0, leadId; by repeat split.
  - destruct (asks_restart m); intros [= <- <- <-]; by left.
Qed.

(** X11.  Only the webhook calls [createLeadInSalesforce], at most once for a
    message, and only for a message of a sender who is not handed off and
    whose conversation, under the sender's text as received, is at
    ASKED_REQUIREMENT; the data passed are the stored answers with the
    message as requirement and the sender as WhatsApp number.  No other
    request and no other stage reaches the CRM. *)
Theorem leads_only_at_the_requirement_step env r st :
  createLeadCalls (serve env r st) = createLeadCalls st \/
  exists body m from c returned,
    r = PostWebhook body /\
    incoming body = Some m /\
    msg_from m = Some from /\
    handoffMode st !! Js.replace_non_digits from <> Some true /\
    conversations st !! from = Some c /\
    stage c = ASKED_REQUIREMENT /\
    createLeadCalls (serve env r st) =
      (createLeadCalls st ++
       [(data (set_whatsappNumber from (set_requirement (messageText_of m) c)),
         returned)])%list.
Proof.
  destruct r as [body|phoneNumber message|phoneNumber|phoneNumber]; cbn [serve].
  - rewrite post_webhook_run. cbn [snd]. unfold after_webhook.
    destruct (incoming body) as [m|] eqn:Hb; [| by left].
    destruct (msg_from m) as [from|] eqn:Hf; [| by left].
    case_bool_decide as Hh; [by left |].
    set (st0 := inbound_recorded env from (messageText_of m) st).
    destruct (decide_reply env from (messageText_of m) st0) as [[[c r] st1]|] eqn:Hd.
    + destruct (handleConversation_replying _ _ _ _ _ _ _ Hd) as (_ & _ & _ & Hcalls & _).
      rewrite Hcalls.
      destruct (decide_reply_leads _ _ _ _ _ _ _ Hd)
        as [[H _] | (c0 & returned & Hc0 & Hs & H & _)]; [by left |].
      right. exists body, m, from, c0, returned. by repeat split.
    + left. by rewrite handleConversation_spec, Hd.
  - left. rewrite post_api_send_message_run.
    destruct phoneNumber as [p|], message as [msg|]; try done.
    destruct (_ || _); [done |]. cbv zeta.
    by destruct (axios_post env _ _ msg).
  - by left.
  - left. rewrite post_api_resume_bot_run. by destruct phoneNumber.
Qed.

(** ** The data behind a lead *)






(** ** Batched deliveries *)

(** X13.  The webhook handles [entry[0].changes[0].value.messages[0]] and
    nothing else: the handler does exactly what it does for the first
    message alone, so that a further message of the array, from another
    sender, is neither recorded on that sender's history nor answered, and
    that sender's conversation stays as it is. *)
Theorem only_first_message_is_handled env st o m from ms cs es :
  msg_from m = Some from ->
  let batch :=
    mkWebhookBody o
      (Some (mkEntry (Some (mkChange (Some (mkValue (Some (m :: ms)))) :: cs)) :: es)) in
  let alone :=
    mkWebhookBody o (Some [mkEntry (Some [mkChange (Some (mkValue (Some [m])))])]) in
  let st' := snd (post_webhook env batch st) in
  post_webhook env batch st = post_webhook env alone st /\
  forall m2 from2,
    m2 ∈ ms ->
    msg_from m2 = Some from2 ->
    from2 <> from ->
    Js.replace_non_digits from2 <> Js.replace_non_digits from ->
    messageHistory st' !! Js.replace_non_digits from2 =
      messageHistory st !! Js.replace_non_digits from2 /\
    conversations st' !! from2 = conversations st !! from2 /\
    Forall (fun sent => to sent <> from2) (sent_between st st').
Proof.
  intros Hf batch alone st'. split; [reflexivity |].
  intros m2 from2 _ _ Hne Hk. subst st'. rewrite post_webhook_run. cbn [snd].
  destruct (incoming batch) as [m'|] eqn:Hb.
  - assert (m' = m) as ->.
    { revert Hb. unfold incoming, batch. simpl. case_bool_decide; by intros [= <-]. }
    destruct (after_webhook_sender env st batch m from Hb Hf) as (H1 & H2 & _ & H4 & _).
    split; [by apply H2 |]. split; [by apply H1 |].
    eapply Forall_impl; [exact H4 |]. intros sent ->. congruence.
  - unfold after_webhook. rewrite Hb.
    rewrite sent_between_nothing by done. by repeat split.
Qed.

Lemma only_first_message_is_handled_witness :
  let first := mkInMessage (Some "15551234567") (Some (mkTextPart (Some "hi"))) in
  let second := mkInMessage (Some "19998887777") (Some (mkTextPart (Some "hello"))) in
  let batch :=
    mkWebhookBody (Some "whatsapp_business_account")
      (Some [mkEntry (Some [mkChange (Some (mkValue (Some [first; second])))])]) in
  let st' := snd (post_webhook (env_ok "00Q1") batch initial_server) in
  messageHistory st' !! "19998887777" = None /\
  conversations st' !! "19998887777" = None /\
  Forall (fun sent => to sent <> "19998887777") (sent_between initial_server st').
Proof.
  intros first second batch st'.
  destruct (only_first_message_is_handled (env_ok "00Q1") initial_server
              (Some "whatsapp_business_account") first "15551234567" [second] [] []
              eq_refl) as (_ & H).
  apply (H second "19998887777"); [by apply list_elem_of_singleton | done | done | done].
Defined.

(** ** The handoff registry *)

(** X14.  The flag set under one spelling of a number is the flag read under
    every spelling with the same digits, the flags of the other identities
    are as they were, and a sender never handed off reads as [false]. *)
Theorem handoff_flag_round_trip phoneNumber queried mode st :
  Js.replace_non_digits phoneNumber = Js.replace_non_digits queried ->
  let st' := snd (setHandoffMode phoneNumber mode st) in
  fst (isHandoffMode queried st') = Normal mode /\
  (forall other,
      Js.replace_non_digits other <> Js.replace_non_digits phoneNumber ->
      fst (isHandoffMode other st') = fst (isHandoffMode other st)) /\
  (forall unknown,
      handoffMode st !! Js.replace_non_digits unknown = None ->
      fst (isHandoffMode unknown st) = Normal false).
Proof.
  intros Hq st'. subst st'. unfold isHandoffMode, setHandoffMode, bind, get, modify, ret.
  simpl. rewrite <- Hq. split; [| split].
  - rewrite lookup_insert_eq. destruct mode; [by rewrite bool_decide_eq_true_2 |].
    by rewrite bool_decide_eq_false_2.
  - intros other Hne. by rewrite lookup_insert_ne.
  - intros unknown ->. by rewrite bool_decide_eq_false_2.
Qed.

Lemma handoff_flag_round_trip_witness :
  Js.replace_non_digits "+1 (555) 123-4567" = Js.replace_non_digits "15551234567" /\
  fst (isHandoffMode "15551234567"
         (snd (setHandoffMode "+1 (555) 123-4567" true initial_server))) = Normal true.
Proof.
  split; [reflexivity |].
  apply (handoff_flag_round_trip "+1 (555) 123-4567" "15551234567" true initial_server
           eq_refl).
Defined.
